(** * DevBrowser backend: the URL security / privacy analyzer

    A shallow embedding of [analyze_url] (server.py, the [/api/analyze]
    endpoint) and the properties of its scoring heuristic.

    Python values are modelled as follows.
    - [str] is [string]: the UTF-8 bytes of the text.  Every character the
      code inspects is ASCII, and a prefix test on the bytes agrees with
      the one on code points.
    - [int] is [Z].
    - [dict] with string keys is stdpp's [gmap string _]; [d.get(k)] is the
      lookup [d !! k], with [None] for an absent key.
    - a [list] is a [list]; [l.append(x)] is [l ++ [x]] and
      [l.insert(0, x)] is [x :: l].
    - an unhandled exception is the [Raised] outcome. *)

From stdpp Require Import gmap strings list fin_maps finite sorting.
From Stdlib Require Import ZArith Ascii String.

Local Open Scope string_scope.
Local Open Scope Z_scope.

(** ** Outcomes of fallible calls *)

Inductive exn : Type :=
| ValueError.

Inductive outcome (A : Type) : Type :=
| Returned (a : A)
| Raised (e : exn).

Arguments Returned {A} a.
Arguments Raised {A} e.

(** ** [str] methods *)

(** [s.startswith(p)] *)
Definition startswith (s p : string) : bool := String.prefix p s.

(** [c in s] for a one-character [c] *)
Fixpoint contains (c : ascii) (s : string) : bool :=
  match s with
  | EmptyString => false
  | String d s' => if Ascii.eqb c d then true else contains c s'
  end.

Definition is_upper (c : ascii) : bool :=
  ((65 <=? nat_of_ascii c) && (nat_of_ascii c <=? 90))%nat.

Definition is_lower (c : ascii) : bool :=
  ((97 <=? nat_of_ascii c) && (nat_of_ascii c <=? 122))%nat.

Definition is_digit (c : ascii) : bool :=
  ((48 <=? nat_of_ascii c) && (nat_of_ascii c <=? 57))%nat.

Definition lower_char (c : ascii) : ascii :=
  if is_upper c then ascii_of_nat (nat_of_ascii c + 32) else c.

(** [s.lower()], on the ASCII letters *)
Fixpoint lower (s : string) : string :=
  match s with
  | EmptyString => EmptyString
  | String c s' => String (lower_char c) (lower s')
  end.

(** ** [list] methods *)

(** [l.append(x)] *)
Definition list_append {A : Type} (l : list A) (x : A) : list A :=
  (l ++ [x])%list.

(** ** urllib.parse

    [urlparse] belongs to Python's standard library.  The analyzer reads
    the [scheme] of its result only, and is exposed to the [ValueError]
    it raises on a malformed network location.  The model follows
    CPython's [urlsplit], which [urlparse] calls first. *)

Module urllib.

(** [_WHATWG_C0_CONTROL_OR_SPACE]: the characters 0x00 to 0x20 *)
Definition c0_control_or_space (c : ascii) : bool :=
  (nat_of_ascii c <=? 32)%nat.

(** [url.lstrip(_WHATWG_C0_CONTROL_OR_SPACE)] *)
Fixpoint lstrip (url : string) : string :=
  match url with
  | EmptyString => EmptyString
  | String c url' => if c0_control_or_space c then lstrip url' else url
  end.

(** [_UNSAFE_URL_BYTES_TO_REMOVE = ['\t', '\r', '\n']] *)
Definition unsafe_url_byte (c : ascii) : bool :=
  match nat_of_ascii c with
  | 9%nat | 10%nat | 13%nat => true
  | _ => false
  end.

(** [for b in _UNSAFE_URL_BYTES_TO_REMOVE: url = url.replace(b, "")] *)
Fixpoint remove_unsafe (url : string) : string :=
  match url with
  | EmptyString => EmptyString
  | String c url' =>
      if unsafe_url_byte c then remove_unsafe url'
      else String c (remove_unsafe url')
  end.

(** [scheme_chars]: ASCII letters, digits and ["+-."] *)
Definition scheme_char (c : ascii) : bool :=
  is_upper c || is_lower c || is_digit c || contains c "+-.".

(** The text before the first [':'] when every character of it is a
    scheme character, with the text after the colon: the loop
    [for c in url[:i]] with its [break] and [else]. *)
Fixpoint split_scheme (url : string) : option (string * string) :=
  match url with
  | EmptyString => None
  | String c url' =>
      if Ascii.eqb c ":" then Some (EmptyString, url')
      else if scheme_char c then
        match split_scheme url' with
        | Some (s, rest) => Some (String c s, rest)
        | None => None
        end
      else None
  end.

(** [url[0].isascii() and url[0].isalpha()]; a letter is not a colon,
    so the first colon, if any, is then at a position [i > 0]. *)
Definition starts_with_letter (url : string) : bool :=
  match url with
  | EmptyString => false
  | String c _ => is_upper c || is_lower c
  end.

(** [_splitnetloc(url, 2)]: the network location runs from position 2
    to the first of ['/'], ['?'] and ['#']. *)
Fixpoint take_netloc (url : string) : string :=
  match url with
  | EmptyString => EmptyString
  | String c url' =>
      if contains c "/?#" then EmptyString else String c (take_netloc url')
  end.

Record ParseResult : Type := {
  scheme : string;
  netloc : string
}.

Section Urlsplit.

(** [_check_bracketed_netloc] (called when the network location has
    both brackets) and [_checknetloc]: the validation of a bracketed
    host and of the NFKC form of a non-ASCII network location.  Both
    rest on tables of the interpreter; [netloc_valid] is [true] when
    neither raises. *)
Variable netloc_valid : string -> bool.

Definition urlsplit (url : string) : outcome ParseResult :=
  let url := lstrip url in
  let url := remove_unsafe url in
  let '(scheme, url) :=
    if starts_with_letter url then
      match split_scheme url with
      | Some (s, rest) => (lower s, rest)
      | None => (EmptyString, url)
      end
    else (EmptyString, url) in
  let netloc :=
    match url with
    | String "/" (String "/" rest) => take_netloc rest
    | _ => EmptyString
    end in
  if (contains "[" netloc && negb (contains "]" netloc))
     || (contains "]" netloc && negb (contains "[" netloc))
  then Raised ValueError
  else if netloc_valid netloc
  then Returned {| scheme := scheme; netloc := netloc |}
  else Raised ValueError.

Definition urlparse (url : string) : outcome ParseResult := urlsplit url.

End Urlsplit.

End urllib.

(** ** aiohttp

    [response.headers] is a case-insensitive multi-dictionary: the header
    lines in the order received. *)

Module aiohttp.

Definition headers_t : Type := list (string * string).

(** [headers.get(name)]: the value of the first line whose name equals
    [name] up to letter case, [None] when there is none. *)
Fixpoint get (headers : headers_t) (name : string) : option string :=
  match headers with
  | [] => None
  | (k, v) :: headers' =>
      if String.eqb (lower k) (lower name) then Some v
      else get headers' name
  end.

(** What [session.head(url, allow_redirects=True, timeout=...)] does
    inside the [try] block: a response arrives, whatever its status, or
    an exception of class [Exception] is raised (DNS, connection, TLS,
    timeout, invalid URL), which the handler catches. *)
Inductive head_outcome : Type :=
| Response (headers : headers_t)
| ClientError.

End aiohttp.

(** ** The models of server.py *)

Record SecurityAnalysis : Type := {
  url : string;
  https : bool;
  security_headers : gmap string string;
  ssl_info : option (gmap string string);
  privacy_score : Z;
  security_score : Z;
  recommendations : list string;
  timestamp : Z
}.

(** ** analyze_url *)

(** Lines 189-191. *)
Definition normalize_url (input_url : string) : string :=
  if negb (startswith input_url "http://" || startswith input_url "https://")
  then "https://" ++ input_url
  else input_url.

(** Lines 206-213: the six headers looked up, in the order of the dict
    literal. *)
Definition security_header_checks (headers : aiohttp.headers_t)
  : list (string * option string) :=
  [ ("Strict-Transport-Security", aiohttp.get headers "Strict-Transport-Security");
    ("Content-Security-Policy", aiohttp.get headers "Content-Security-Policy");
    ("X-Frame-Options", aiohttp.get headers "X-Frame-Options");
    ("X-Content-Type-Options", aiohttp.get headers "X-Content-Type-Options");
    ("Referrer-Policy", aiohttp.get headers "Referrer-Policy");
    ("Permissions-Policy", aiohttp.get headers "Permissions-Policy") ].

(** [v if v else 'Missing']: [None] and the empty string are falsy. *)
Definition value_or_missing (v : option string) : string :=
  match v with
  | None => "Missing"
  | Some EmptyString => "Missing"
  | Some v => v
  end.

(** Line 215: [{k: v if v else 'Missing' for k, v in ....items()}]. *)
Definition present_or_missing (checks : list (string * option string))
  : gmap string string :=
  foldl (fun d kv => <[kv.1 := value_or_missing kv.2]> d) ∅ checks.

(** Lines 200-218: the [try] block and its handler.  The warning that the
    handler logs does not reach the result. *)
Definition fetch_security_headers (o : aiohttp.head_outcome)
  : gmap string string :=
  match o with
  | aiohttp.Response headers =>
      present_or_missing (security_header_checks headers)
  | aiohttp.ClientError => {[ "error" := "Could not fetch headers" ]}
  end.

(** [security_headers.get(name) != 'Missing'] *)
Definition not_missing (security_headers : gmap string string)
  (name : string) : bool :=
  bool_decide (security_headers !! name ≠ Some "Missing").

(** Lines 220-260: the running scores and the recommendation list, each
    [if]/[else] updating them in turn. *)
Definition calculate_scores (is_https : bool)
  (security_headers : gmap string string) : Z * Z * list string :=
  let security_score := 0 in
  let privacy_score := 0 in
  let recommendations : list string := [] in
  let '(security_score, privacy_score, recommendations) :=
    if is_https
    then (security_score + 30, privacy_score + 20, recommendations)
    else (security_score, privacy_score,
          list_append recommendations "Site does not use HTTPS - traffic is not encrypted") in
  let '(security_score, recommendations) :=
    if not_missing security_headers "Strict-Transport-Security"
    then (security_score + 15, recommendations)
    else (security_score,
          list_append recommendations "Missing HSTS header - vulnerable to protocol downgrade attacks") in
  let '(security_score, privacy_score, recommendations) :=
    if not_missing security_headers "Content-Security-Policy"
    then (security_score + 15, privacy_score + 15, recommendations)
    else (security_score, privacy_score,
          list_append recommendations "Missing CSP header - vulnerable to XSS attacks") in
  let '(security_score, recommendations) :=
    if not_missing security_headers "X-Frame-Options"
    then (security_score + 10, recommendations)
    else (security_score,
          list_append recommendations "Missing X-Frame-Options - vulnerable to clickjacking") in
  let '(security_score, recommendations) :=
    if not_missing security_headers "X-Content-Type-Options"
    then (security_score + 10, recommendations)
    else (security_score,
          list_append recommendations "Missing X-Content-Type-Options header") in
  let '(privacy_score, recommendations) :=
    if not_missing security_headers "Referrer-Policy"
    then (privacy_score + 15, recommendations)
    else (privacy_score,
          list_append recommendations "Missing Referrer-Policy - may leak information") in
  let '(privacy_score, recommendations) :=
    if not_missing security_headers "Permissions-Policy"
    then (privacy_score + 20, recommendations)
    else (privacy_score,
          list_append recommendations "Missing Permissions-Policy header") in
  (security_score, privacy_score, recommendations).

(** Lines 263-264: [min(score, 100)]. *)
Definition normalize_score (score : Z) : Z := Z.min score 100.

(** Lines 267-270. *)
Definition add_positive_feedback (security_score : Z)
  (recommendations : list string) : list string :=
  if 80 <=? security_score
  then "Excellent security configuration!" :: recommendations
  else if 60 <=? security_score
  then "Good security, but room for improvement" :: recommendations
  else recommendations.

(** Lines 272-273. *)
Definition default_if_empty (recommendations : list string) : list string :=
  match recommendations with
  | [] => list_append recommendations "All security checks passed!"
  | _ => recommendations
  end.

Section Analyzer.

(** The interpreter's validation of network locations, the network as
    seen by the [HEAD] request, and the clock read for [timestamp]. *)
Variable netloc_valid : string -> bool.
Variable session_head : string -> aiohttp.head_outcome.
Variable now : Z.

Definition analyze_url (input_url : string) : outcome SecurityAnalysis :=
  let url := normalize_url input_url in
  match urllib.urlparse netloc_valid url with
  | Raised e => Raised e
  | Returned parsed =>
      let is_https := String.eqb (urllib.scheme parsed) "https" in
      let security_headers := fetch_security_headers (session_head url) in
      let ssl_info := None in
      let '(security_score, privacy_score, recommendations) :=
        calculate_scores is_https security_headers in
      let security_score := normalize_score security_score in
      let privacy_score := normalize_score privacy_score in
      let recommendations :=
        add_positive_feedback security_score recommendations in
      let recommendations := default_if_empty recommendations in
      Returned {| url := url;
                  https := is_https;
                  security_headers := security_headers;
                  ssl_info := ssl_info;
                  privacy_score := privacy_score;
                  security_score := security_score;
                  recommendations := recommendations;
                  timestamp := now |}
  end.

End Analyzer.

(** The six header names, in the order of the dict literal. *)
Definition security_header_names : list string :=
  [ "Strict-Transport-Security"; "Content-Security-Policy"; "X-Frame-Options";
    "X-Content-Type-Options"; "Referrer-Policy"; "Permissions-Policy" ].

(** The messages of the seven [else] branches, in source order. *)
Definition failure_messages : list string :=
  [ "Site does not use HTTPS - traffic is not encrypted";
    "Missing HSTS header - vulnerable to protocol downgrade attacks";
    "Missing CSP header - vulnerable to XSS attacks";
    "Missing X-Frame-Options - vulnerable to clickjacking";
    "Missing X-Content-Type-Options header";
    "Missing Referrer-Policy - may leak information";
    "Missing Permissions-Policy header" ].

(** Lines 231-260: the header that each of the six header rules looks up,
    with the message of its [else] branch. *)
Definition header_rules : list (string * string) :=
  [ ("Strict-Transport-Security",
     "Missing HSTS header - vulnerable to protocol downgrade attacks");
    ("Content-Security-Policy",
     "Missing CSP header - vulnerable to XSS attacks");
    ("X-Frame-Options",
     "Missing X-Frame-Options - vulnerable to clickjacking");
    ("X-Content-Type-Options", "Missing X-Content-Type-Options header");
    ("Referrer-Policy", "Missing Referrer-Policy - may leak information");
    ("Permissions-Policy", "Missing Permissions-Policy header") ].

(** ** The stored records: tabs and history

    The endpoints for tabs and history keep their records in two MongoDB
    collections.  The state of an endpoint is the collection it works on,
    passed in and handed back.  Only these endpoints write to the
    collections, so a stored document has the fields of the model it was
    dumped from; the ["_id"] that the store adds is projected away by
    every query and left out.

    A [datetime] is the instant it denotes, in microseconds, as an
    integer.  A document holds it as the text that [isoformat()] gives,
    from which [fromisoformat] gives the instant back:
    [IsoText t] is that text for the instant [t], and [Date t] is a
    [datetime] value put in a dictionary. *)

Inductive stored_time : Type :=
| IsoText (t : Z)
| Date (t : Z).

(** [if isinstance(v, str): v = datetime.fromisoformat(v)] *)
Definition fromisoformat_if_str (v : stored_time) : stored_time :=
  match v with
  | IsoText t => Date t
  | Date t => Date t
  end.

(** The value that pydantic reads from either form. *)
Definition instant (v : stored_time) : Z :=
  match v with
  | IsoText t => t
  | Date t => t
  end.

(** What leaves an endpoint other than its return value. *)
Inductive failure : Type :=
| HTTPException (status_code : Z) (detail : string)
| ValidationError
| Unhandled (e : exn).

Inductive reply (A : Type) : Type :=
| Reply (a : A)
| Failed (f : failure).

Arguments Reply {A} a.
Arguments Failed {A} f.

(** *** motor: a collection and its cursor

    A collection is the list of its documents in the order in which the
    store returns them, a new document coming last. *)

Module mongo.

Section Collection.

Context {D : Type}.

(** [insert_one(doc)] *)
Definition insert_one (doc : D) (docs : list D) : list D :=
  list_append docs doc.

(** [find_one(filter)]: the first document that matches, or [None]. *)
Fixpoint find_one (matches : D -> bool) (docs : list D) : option D :=
  match docs with
  | [] => None
  | doc :: docs' => if matches doc then Some doc else find_one matches docs'
  end.

(** [delete_one(filter)]: the collection without the first document that
    matches, and [deleted_count]. *)
Fixpoint delete_one (matches : D -> bool) (docs : list D) : list D * Z :=
  match docs with
  | [] => ([], 0)
  | doc :: docs' =>
      if matches doc then (docs', 1)
      else let '(rest, deleted_count) := delete_one matches docs' in
           (doc :: rest, deleted_count)
  end.

(** [update_one(filter, update)]: the first document that matches is
    replaced by its update. *)
Fixpoint update_one (matches : D -> bool) (update : D -> D)
  (docs : list D) : list D :=
  match docs with
  | [] => []
  | doc :: docs' =>
      if matches doc then update doc :: docs'
      else doc :: update_one matches update docs'
  end.

(** [delete_many({})] *)
Definition delete_many_all (docs : list D) : list D := [].

(** [cursor.to_list(length)]: at most [length] documents; a negative
    [length] is refused with [ValueError]. *)
Definition to_list (length : Z) (cursor : list D) : outcome (list D) :=
  if length <? 0 then Raised ValueError
  else Returned (take (Z.to_nat length) cursor).

End Collection.

End mongo.

(** *** Tabs *)

Module TabCreate.
Record t : Type := {
  url : string;
  title : option string;
  favicon : option string
}.
End TabCreate.

Module Tab.
Record t : Type := {
  id : string;
  url : string;
  title : string;
  favicon : string;
  created_at : Z
}.
End Tab.

(** The dictionary stored for a tab. *)
Module TabDoc.
Record t : Type := {
  id : string;
  url : string;
  title : string;
  favicon : string;
  created_at : stored_time
}.
End TabDoc.

(** Line 93, a [Tab] built from the keywords of [input.model_dump()]:
    [title] and [favicon] are declared [str], so pydantic refuses a
    [None] passed for them; [id] and [created_at] come from their default
    factories. *)
Definition Tab_of_input (uuid4 : string) (now : Z) (input : TabCreate.t)
  : reply Tab.t :=
  match TabCreate.title input, TabCreate.favicon input with
  | Some title, Some favicon =>
      Reply {| Tab.id := uuid4;
               Tab.url := TabCreate.url input;
               Tab.title := title;
               Tab.favicon := favicon;
               Tab.created_at := now |}
  | _, _ => Failed ValidationError
  end.

(** Lines 94-95: [model_dump()], then [created_at] as ISO text. *)
Definition Tab_dump (tab_obj : Tab.t) : TabDoc.t :=
  {| TabDoc.id := Tab.id tab_obj;
     TabDoc.url := Tab.url tab_obj;
     TabDoc.title := Tab.title tab_obj;
     TabDoc.favicon := Tab.favicon tab_obj;
     TabDoc.created_at := IsoText (Tab.created_at tab_obj) |}.

(** Lines 102-105 and the response model: a stored dictionary read as a
    [Tab]. *)
Definition Tab_of_doc (tab : TabDoc.t) : Tab.t :=
  let created_at := fromisoformat_if_str (TabDoc.created_at tab) in
  {| Tab.id := TabDoc.id tab;
     Tab.url := TabDoc.url tab;
     Tab.title := TabDoc.title tab;
     Tab.favicon := TabDoc.favicon tab;
     Tab.created_at := instant created_at |}.

(** Lines 91-97.  [uuid4] and [now] are what [uuid.uuid4()] and
    [datetime.now(timezone.utc)] give during the call. *)
Definition create_tab (uuid4 : string) (now : Z) (input : TabCreate.t)
  (tabs : list TabDoc.t) : reply Tab.t * list TabDoc.t :=
  match Tab_of_input uuid4 now input with
  | Failed f => (Failed f, tabs)
  | Reply tab_obj =>
      let doc := Tab_dump tab_obj in
      (Reply tab_obj, mongo.insert_one doc tabs)
  end.

(** Lines 99-105. *)
Definition get_tabs (tabs : list TabDoc.t) : reply (list Tab.t) :=
  match mongo.to_list 100 tabs with
  | Raised e => Failed (Unhandled e)
  | Returned tabs => Reply (map Tab_of_doc tabs)
  end.

(** Lines 107-112. *)
Definition delete_tab (tab_id : string) (tabs : list TabDoc.t)
  : reply (gmap string string) * list TabDoc.t :=
  let '(tabs, deleted_count) :=
    mongo.delete_one (fun tab => String.eqb (TabDoc.id tab) tab_id) tabs in
  if deleted_count =? 0
  then (Failed (HTTPException 404 "Tab not found"), tabs)
  else (Reply {[ "message" := "Tab deleted" ]}, tabs).

(** *** History *)

Module HistoryCreate.
Record t : Type := {
  url : string;
  title : string;
  favicon : option string
}.
End HistoryCreate.

Module HistoryEntry.
Record t : Type := {
  id : string;
  url : string;
  title : string;
  favicon : string;
  visit_time : Z;
  visit_count : Z
}.
End HistoryEntry.

(** The dictionary stored for a history entry. *)
Module HistoryDoc.
Record t : Type := {
  id : string;
  url : string;
  title : string;
  favicon : string;
  visit_time : stored_time;
  visit_count : Z
}.
End HistoryDoc.

(** Line 159, a [HistoryEntry] built from the keywords of
    [input.model_dump()]: [favicon] is declared [str], so a [None] is
    refused; [visit_count] takes its default 1. *)
Definition HistoryEntry_of_input (uuid4 : string) (now : Z)
  (input : HistoryCreate.t) : reply HistoryEntry.t :=
  match HistoryCreate.favicon input with
  | Some favicon =>
      Reply {| HistoryEntry.id := uuid4;
               HistoryEntry.url := HistoryCreate.url input;
               HistoryEntry.title := HistoryCreate.title input;
               HistoryEntry.favicon := favicon;
               HistoryEntry.visit_time := now;
               HistoryEntry.visit_count := 1 |}
  | None => Failed ValidationError
  end.

(** Lines 160-161. *)
Definition HistoryEntry_dump (history_obj : HistoryEntry.t) : HistoryDoc.t :=
  {| HistoryDoc.id := HistoryEntry.id history_obj;
     HistoryDoc.url := HistoryEntry.url history_obj;
     HistoryDoc.title := HistoryEntry.title history_obj;
     HistoryDoc.favicon := HistoryEntry.favicon history_obj;
     HistoryDoc.visit_time := IsoText (HistoryEntry.visit_time history_obj);
     HistoryDoc.visit_count := HistoryEntry.visit_count history_obj |}.

(** Line 157 and the response model: a dictionary read as a
    [HistoryEntry]. *)
Definition HistoryEntry_of_doc (entry : HistoryDoc.t) : HistoryEntry.t :=
  {| HistoryEntry.id := HistoryDoc.id entry;
     HistoryEntry.url := HistoryDoc.url entry;
     HistoryEntry.title := HistoryDoc.title entry;
     HistoryEntry.favicon := HistoryDoc.favicon entry;
     HistoryEntry.visit_time := instant (HistoryDoc.visit_time entry);
     HistoryEntry.visit_count := HistoryDoc.visit_count entry |}.

(** [{"url": input.url}] *)
Definition url_is (url : string) (entry : HistoryDoc.t) : bool :=
  String.eqb (HistoryDoc.url entry) url.

(** Lines 148-151: [$set] of [visit_time] and [$inc] of [visit_count]. *)
Definition set_time_inc_count (now : Z) (entry : HistoryDoc.t)
  : HistoryDoc.t :=
  {| HistoryDoc.id := HistoryDoc.id entry;
     HistoryDoc.url := HistoryDoc.url entry;
     HistoryDoc.title := HistoryDoc.title entry;
     HistoryDoc.favicon := HistoryDoc.favicon entry;
     HistoryDoc.visit_time := IsoText now;
     HistoryDoc.visit_count := HistoryDoc.visit_count entry + 1 |}.

(** Lines 141-163.  [now] is the first reading of the clock during the
    call; [later] is the second one, taken on the path of a known URL
    only. *)
Definition add_history (uuid4 : string) (now later : Z)
  (input : HistoryCreate.t) (history : list HistoryDoc.t)
  : reply HistoryEntry.t * list HistoryDoc.t :=
  let existing := mongo.find_one (url_is (HistoryCreate.url input)) history in
  match existing with
  | Some existing =>
      let history :=
        mongo.update_one (url_is (HistoryCreate.url input))
          (set_time_inc_count now) history in
      let existing :=
        {| HistoryDoc.id := HistoryDoc.id existing;
           HistoryDoc.url := HistoryDoc.url existing;
           HistoryDoc.title := HistoryDoc.title existing;
           HistoryDoc.favicon := HistoryDoc.favicon existing;
           HistoryDoc.visit_time := Date later;
           HistoryDoc.visit_count := HistoryDoc.visit_count existing |} in
      let existing :=
        {| HistoryDoc.id := HistoryDoc.id existing;
           HistoryDoc.url := HistoryDoc.url existing;
           HistoryDoc.title := HistoryDoc.title existing;
           HistoryDoc.favicon := HistoryDoc.favicon existing;
           HistoryDoc.visit_time := HistoryDoc.visit_time existing;
           HistoryDoc.visit_count := HistoryDoc.visit_count existing + 1 |} in
      let existing :=
        {| HistoryDoc.id := HistoryDoc.id existing;
           HistoryDoc.url := HistoryDoc.url existing;
           HistoryDoc.title := HistoryDoc.title existing;
           HistoryDoc.favicon := HistoryDoc.favicon existing;
           HistoryDoc.visit_time :=
             fromisoformat_if_str (HistoryDoc.visit_time existing);
           HistoryDoc.visit_count := HistoryDoc.visit_count existing |} in
      (Reply (HistoryEntry_of_doc existing), history)
  | None =>
      match HistoryEntry_of_input uuid4 now input with
      | Failed f => (Failed f, history)
      | Reply history_obj =>
          let doc := HistoryEntry_dump history_obj in
          (Reply history_obj, mongo.insert_one doc history)
      end
  end.

(** Lines 173-178. *)
Definition delete_history (history_id : string) (history : list HistoryDoc.t)
  : reply (gmap string string) * list HistoryDoc.t :=
  let '(history, deleted_count) :=
    mongo.delete_one
      (fun entry => String.eqb (HistoryDoc.id entry) history_id) history in
  if deleted_count =? 0
  then (Failed (HTTPException 404 "History entry not found"), history)
  else (Reply {[ "message" := "History entry deleted" ]}, history).

(** Lines 180-183. *)
Definition clear_history (history : list HistoryDoc.t)
  : reply (gmap string string) * list HistoryDoc.t :=
  (Reply {[ "message" := "History cleared" ]}, mongo.delete_many_all history).

Section GetHistory.

(** [cursor.sort("visit_time", -1)]: the store's sort of the documents by
    the text of [visit_time], largest first.  The order it gives to
    documents with equal keys is its own. *)
Variable sort_by_visit_time_desc : list HistoryDoc.t -> list HistoryDoc.t.

(** Lines 165-171. *)
Definition get_history (limit : Z) (history : list HistoryDoc.t)
  : reply (list HistoryEntry.t) :=
  match mongo.to_list limit (sort_by_visit_time_desc history) with
  | Raised e => Failed (Unhandled e)
  | Returned history =>
      Reply (map (fun entry =>
                    HistoryEntry_of_doc
                      {| HistoryDoc.id := HistoryDoc.id entry;
                         HistoryDoc.url := HistoryDoc.url entry;
                         HistoryDoc.title := HistoryDoc.title entry;
                         HistoryDoc.favicon := HistoryDoc.favicon entry;
                         HistoryDoc.visit_time :=
                           fromisoformat_if_str (HistoryDoc.visit_time entry);
                         HistoryDoc.visit_count :=
                           HistoryDoc.visit_count entry |})
                 history)
  end.

End GetHistory.

(** A client that posts one visit after another: each request comes with
    the identifier and the clock readings of its call. *)
Fixpoint add_history_each
  (requests : list (string * Z * Z * HistoryCreate.t))
  (history : list HistoryDoc.t) : list HistoryDoc.t :=
  match requests with
  | [] => history
  | (uuid4, now, later, input) :: requests' =>
      add_history_each requests' (add_history uuid4 now later input history).2
  end.

(** The visit count that the store holds for a URL: that of the entry
    which a query for the URL finds, 0 when it finds none. *)
Definition visits_recorded (url : string) (history : list HistoryDoc.t) : Z :=
  match mongo.find_one (url_is url) history with
  | Some entry => HistoryDoc.visit_count entry
  | None => 0
  end.

(** The order of [sort("visit_time", -1)]: the first document is at least
    as new as the second.  The texts that [isoformat()] gives for instants
    of one time zone are ordered as the instants are. *)
Definition newer_first (entry1 entry2 : HistoryDoc.t) : Prop :=
  instant (HistoryDoc.visit_time entry2) <=
  instant (HistoryDoc.visit_time entry1).

#[global] Instance newer_first_dec : RelDecision newer_first :=
  fun entry1 entry2 =>
    decide (instant (HistoryDoc.visit_time entry2) <=
            instant (HistoryDoc.visit_time entry1)).

(** ** Sample environments

    Concrete interpreters, networks and sites on which the analyzer is
    evaluated below. *)

Definition accept_all : string -> bool := fun _ => true.

(** A network on which every request fails. *)
Definition unreachable : string -> aiohttp.head_outcome :=
  fun _ => aiohttp.ClientError.

Definition hardened_headers : aiohttp.headers_t :=
  [ ("Content-Type", "text/html");
    ("strict-transport-security", "max-age=63072000");
    ("Content-Security-Policy", "default-src 'self'");
    ("X-Frame-Options", "DENY");
    ("X-Content-Type-Options", "nosniff");
    ("Referrer-Policy", "no-referrer");
    ("Permissions-Policy", "geolocation=()") ].

(** A site that sends all six headers. *)
Definition hardened_site : string -> aiohttp.head_outcome :=
  fun _ => aiohttp.Response hardened_headers.

(** A site that sends none of them. *)
Definition bare_site : string -> aiohttp.head_outcome :=
  fun _ => aiohttp.Response [("Content-Type", "text/html")].

(** A site that sends HSTS and CSP only. *)
Definition partly_hardened_site : string -> aiohttp.head_outcome :=
  fun _ => aiohttp.Response
    [ ("Strict-Transport-Security", "max-age=63072000");
      ("Content-Security-Policy", "default-src 'self'") ].

Definition blank_headers : aiohttp.headers_t :=
  [ ("X-Frame-Options", ""); ("Referrer-Policy", "no-referrer") ].

(** A site that sends an X-Frame-Options line with an empty value. *)
Definition blank_header_site : string -> aiohttp.head_outcome :=
  fun _ => aiohttp.Response blank_headers.

(** A sort of the history, newest first, and a history of three
    entries to run it on. *)
Definition sort_newest_first : list HistoryDoc.t -> list HistoryDoc.t :=
  merge_sort newer_first.

Definition stored_visit (id url : string) (visit_time visit_count : Z)
  : HistoryDoc.t :=
  {| HistoryDoc.id := id;
     HistoryDoc.url := url;
     HistoryDoc.title := "";
     HistoryDoc.favicon := "";
     HistoryDoc.visit_time := IsoText visit_time;
     HistoryDoc.visit_count := visit_count |}.

Definition three_visits : list HistoryDoc.t :=
  [ stored_visit "a" "https://a.example" 10 1;
    stored_visit "b" "https://b.example" 30 4;
    stored_visit "c" "https://c.example" 20 2 ].

(** A site that sends an X-Frame-Options line whose value is the word
    "Missing". *)
Definition sentinel_headers : aiohttp.headers_t :=
  [ ("X-Frame-Options", "Missing");
    ("Strict-Transport-Security", "max-age=63072000") ].

Definition sentinel_site : string -> aiohttp.head_outcome :=
  fun _ => aiohttp.Response sentinel_headers.

(** Requests to the tab and history endpoints. *)
Definition new_tab (title favicon : option string) : TabCreate.t :=
  {| TabCreate.url := "https://example.org";
     TabCreate.title := title;
     TabCreate.favicon := favicon |}.

Definition stored_tab (id : string) (created_at : Z) : TabDoc.t :=
  {| TabDoc.id := id;
     TabDoc.url := "https://example.org";
     TabDoc.title := "Example Org";
     TabDoc.favicon := "";
     TabDoc.created_at := IsoText created_at |}.

Definition visit (url : string) (favicon : option string) : HistoryCreate.t :=
  {| HistoryCreate.url := url;
     HistoryCreate.title := "Test Site";
     HistoryCreate.favicon := favicon |}.

(** * Properties *)

(** ** URL normalization and parsing *)

Lemma startswith_app (p s : string) : startswith (p ++ s) p = true.
Proof.
  unfold startswith. induction p as [|c p IH]; simpl.
  - by destruct s.
  - destruct (ascii_dec c c); [exact IH | done].
Qed.

Lemma startswith_inv (s p : string) :
  startswith s p = true -> exists rest, s = p ++ rest.
Proof.
  unfold startswith. revert s. induction p as [|c p IH]; intros s H.
  - by exists s.
  - destruct s as [|d s]; simpl in H; [done|].
    destruct (ascii_dec c d) as [->|]; [|done].
    destruct (IH s H) as [rest ->]. by exists rest.
Qed.

Lemma normalize_url_no_scheme (input_url : string) :
  startswith input_url "http://" = false ->
  startswith input_url "https://" = false ->
  normalize_url input_url = "https://" ++ input_url.
Proof. intros H1 H2. unfold normalize_url. by rewrite H1, H2. Qed.

Lemma normalize_url_with_scheme (input_url : string) :
  startswith input_url "http://" = true \/
  startswith input_url "https://" = true ->
  normalize_url input_url = input_url.
Proof.
  intros [H|H]; unfold normalize_url; rewrite H; [done|].
  by rewrite orb_true_r.
Qed.

Lemma normalize_url_prefixed (input_url : string) :
  exists rest,
    normalize_url input_url = "https://" ++ rest \/
    normalize_url input_url = "http://" ++ rest.
Proof.
  unfold normalize_url.
  destruct (startswith input_url "http://") eqn:H1; cbn [orb negb].
  - apply startswith_inv in H1 as [rest ->]. eauto.
  - destruct (startswith input_url "https://") eqn:H2; cbn [negb].
    + apply startswith_inv in H2 as [rest ->]. eauto.
    + eauto.
Qed.

(** [urlsplit] on a URL that begins with one of the two prefixes: nothing
    is stripped from the prefix, and the text before its colon is the
    scheme. *)
Lemma urlsplit_https netloc_valid (rest : string) :
  urllib.urlsplit netloc_valid ("https://" ++ rest) =
  let netloc := urllib.take_netloc (urllib.remove_unsafe rest) in
  if (contains "[" netloc && negb (contains "]" netloc))
     || (contains "]" netloc && negb (contains "[" netloc))
  then Raised ValueError
  else if netloc_valid netloc
  then Returned {| urllib.scheme := "https"; urllib.netloc := netloc |}
  else Raised ValueError.
Proof. reflexivity. Qed.

Lemma urlsplit_http netloc_valid (rest : string) :
  urllib.urlsplit netloc_valid ("http://" ++ rest) =
  let netloc := urllib.take_netloc (urllib.remove_unsafe rest) in
  if (contains "[" netloc && negb (contains "]" netloc))
     || (contains "]" netloc && negb (contains "[" netloc))
  then Raised ValueError
  else if netloc_valid netloc
  then Returned {| urllib.scheme := "http"; urllib.netloc := netloc |}
  else Raised ValueError.
Proof. reflexivity. Qed.

Lemma urlparse_https_scheme netloc_valid (rest : string) parsed :
  urllib.urlparse netloc_valid ("https://" ++ rest) = Returned parsed ->
  urllib.scheme parsed = "https".
Proof.
  unfold urllib.urlparse. rewrite urlsplit_https. cbv zeta.
  repeat case_match; intros [= <-]; reflexivity.
Qed.

Lemma urlparse_http_scheme netloc_valid (rest : string) parsed :
  urllib.urlparse netloc_valid ("http://" ++ rest) = Returned parsed ->
  urllib.scheme parsed = "http".
Proof.
  unfold urllib.urlparse. rewrite urlsplit_http. cbv zeta.
  repeat case_match; intros [= <-]; reflexivity.
Qed.

(** ** The shape of a returned analysis *)

Section AnalyzerFacts.

Variable netloc_valid : string -> bool.
Variable session_head : string -> aiohttp.head_outcome.
Variable now : Z.

Lemma analyze_url_Returned (input_url : string) (r : SecurityAnalysis) :
  analyze_url netloc_valid session_head now input_url = Returned r ->
  exists parsed,
    urllib.urlparse netloc_valid (normalize_url input_url) = Returned parsed /\
    r = let is_https := String.eqb (urllib.scheme parsed) "https" in
        let headers := fetch_security_headers (session_head (normalize_url input_url)) in
        let scores := calculate_scores is_https headers in
        {| url := normalize_url input_url;
           https := is_https;
           security_headers := headers;
           ssl_info := None;
           privacy_score := normalize_score scores.1.2;
           security_score := normalize_score scores.1.1;
           recommendations :=
             default_if_empty
               (add_positive_feedback (normalize_score scores.1.1) scores.2);
           timestamp := now |}.
Proof.
  unfold analyze_url.
  destruct (urllib.urlparse _ _) as [parsed|e]; [|done].
  destruct (calculate_scores _ _) as [[s p] recs] eqn:E.
  intros [= <-]. exists parsed. split; [done|].
  cbv zeta. by rewrite E.
Qed.

(** Every URL that [urlparse] accepts is analyzed to the end: the only
    exception that leaves [analyze_url] is the parser's. *)
Lemma analyze_url_returns (input_url : string) parsed :
  urllib.urlparse netloc_valid (normalize_url input_url) = Returned parsed ->
  exists r, analyze_url netloc_valid session_head now input_url = Returned r.
Proof.
  intros H. unfold analyze_url. rewrite H.
  destruct (calculate_scores _ _) as [[s p] recs]. eauto.
Qed.

End AnalyzerFacts.

(** [analyze_url] does raise on some inputs: the parser rejects an
    unmatched bracket in the network location before the [try] block is
    entered. *)
Example analyze_url_unmatched_bracket netloc_valid session_head now :
  analyze_url netloc_valid session_head now "[" = Raised ValueError.
Proof. reflexivity. Qed.

(** ** Scoring *)

(** The scores and the list depend on the seven conditions of the rule
    table only: a property of them is settled by running through the 128
    combinations. *)
Ltac rule_cases :=
  unfold calculate_scores;
  repeat match goal with
    | |- context [not_missing ?m ?k] => generalize (not_missing m k)
    end;
  match goal with
  | is_https : bool |- _ => revert is_https
  end;
  compute_done.

Lemma calculate_scores_bounds (is_https : bool)
  (security_headers : gmap string string) :
  let scores := calculate_scores is_https security_headers in
  0 <= scores.1.1 <= 80 /\ 0 <= scores.1.2 <= 70.
Proof. rule_cases. Qed.

Lemma add_positive_feedback_bands (security_score : Z)
  (recommendations : list string) :
  (80 <= security_score ->
   add_positive_feedback security_score recommendations =
   "Excellent security configuration!" :: recommendations) /\
  (60 <= security_score < 80 ->
   add_positive_feedback security_score recommendations =
   "Good security, but room for improvement" :: recommendations) /\
  (security_score < 60 ->
   add_positive_feedback security_score recommendations = recommendations).
Proof.
  unfold add_positive_feedback.
  destruct (Z.leb_spec 80 security_score), (Z.leb_spec 60 security_score);
    repeat split; intros; first [reflexivity | lia].
Qed.

Lemma default_if_empty_nonempty (recommendations : list string) :
  default_if_empty recommendations <> [].
Proof. by destruct recommendations. Qed.

(** The failed rules never emit a positive-feedback message themselves. *)
Lemma calculate_scores_no_feedback (is_https : bool)
  (security_headers : gmap string string) :
  let recommendations := (calculate_scores is_https security_headers).2 in
  ("Excellent security configuration!" ∉ recommendations) /\
  ("Good security, but room for improvement" ∉ recommendations).
Proof. rule_cases. Qed.

Lemma default_if_empty_elem (x : string) (recommendations : list string) :
  x ∈ default_if_empty recommendations ->
  x ∈ recommendations \/ x = "All security checks passed!".
Proof.
  destruct recommendations as [|y l]; cbn.
  - intros ->%list_elem_of_singleton. by right.
  - by left.
Qed.

(** The HTTPS rule, whatever the header map: its message is in the final
    list exactly when the scheme is not https, and is then the first
    entry, since without the 30 points of HTTPS no band is reached. *)
Lemma https_rule_recommendation (is_https : bool)
  (security_headers : gmap string string) :
  let scores := calculate_scores is_https security_headers in
  let recommendations :=
    default_if_empty
      (add_positive_feedback (normalize_score scores.1.1) scores.2) in
  ("Site does not use HTTPS - traffic is not encrypted" ∈ recommendations
   <-> is_https = false) /\
  (is_https = false ->
   head recommendations =
   Some "Site does not use HTTPS - traffic is not encrypted").
Proof. rule_cases. Qed.

(** ** The header map *)

(** A property of the six header names is proved name by name. *)
Lemma each_security_header (P : string -> Prop) :
  P "Strict-Transport-Security" ->
  P "Content-Security-Policy" ->
  P "X-Frame-Options" ->
  P "X-Content-Type-Options" ->
  P "Referrer-Policy" ->
  P "Permissions-Policy" ->
  forall name, name ∈ security_header_names -> P name.
Proof.
  intros ? ? ? ? ? ? name. unfold security_header_names.
  rewrite !elem_of_cons, elem_of_nil. intros Hname.
  repeat destruct Hname as [->|Hname]; done.
Qed.

(** On a response, each of the six names is a key of the map, bound to the
    header's value or to the sentinel. *)
Lemma fetch_security_headers_response (headers : aiohttp.headers_t)
  (name : string) :
  name ∈ security_header_names ->
  fetch_security_headers (aiohttp.Response headers) !! name =
  Some (value_or_missing (aiohttp.get headers name)).
Proof.
  revert name. cbn [fetch_security_headers].
  unfold present_or_missing, security_header_checks. cbn [foldl fst snd].
  apply each_security_header; by simplify_map_eq.
Qed.

(** On a failed fetch none of the six names is a key of the map. *)
Lemma fetch_security_headers_error (name : string) :
  name ∈ security_header_names ->
  fetch_security_headers aiohttp.ClientError !! name = None.
Proof.
  revert name. cbn [fetch_security_headers].
  apply each_security_header; by simplify_map_eq.
Qed.

(** An absent key is not the sentinel: [None != 'Missing'] holds. *)
Lemma not_missing_absent (security_headers : gmap string string)
  (name : string) :
  security_headers !! name = None ->
  not_missing security_headers name = true.
Proof. intros H. unfold not_missing. rewrite H. by apply bool_decide_eq_true. Qed.

Lemma not_missing_false (security_headers : gmap string string)
  (name : string) :
  not_missing security_headers name = false <->
  security_headers !! name = Some "Missing".
Proof.
  unfold not_missing. rewrite bool_decide_eq_false.
  split; [apply dec_stable | by intros ? ?].
Qed.

Lemma not_missing_true (security_headers : gmap string string)
  (name : string) :
  not_missing security_headers name = true <->
  security_headers !! name <> Some "Missing".
Proof. unfold not_missing. by rewrite bool_decide_eq_true. Qed.

Section Claims.

Variable netloc_valid : string -> bool.
Variable session_head : string -> aiohttp.head_outcome.
Variable now : Z.

(** C4: whatever the input and whatever the outcome of the header fetch,
    the security score and the privacy score of a returned analysis lie
    in the closed interval from 0 to 100. *)
Theorem scores_within_0_100 (input_url : string) (r : SecurityAnalysis) :
  analyze_url netloc_valid session_head now input_url = Returned r ->
  0 <= security_score r <= 100 /\ 0 <= privacy_score r <= 100.
Proof.
  intros (parsed & _ & ->)%analyze_url_Returned. cbn.
  pose proof (calculate_scores_bounds
    (String.eqb (urllib.scheme parsed) "https")
    (fetch_security_headers (session_head (normalize_url input_url)))) as H.
  cbv zeta in H. unfold normalize_score. lia.
Qed.

(** C8: whatever the input and whatever the outcome of the header fetch,
    the recommendation list of a returned analysis is not empty. *)
Theorem recommendations_nonempty (input_url : string) (r : SecurityAnalysis) :
  analyze_url netloc_valid session_head now input_url = Returned r ->
  recommendations r <> [].
Proof.
  intros (parsed & _ & ->)%analyze_url_Returned. cbn.
  apply default_if_empty_nonempty.
Qed.

(** C10: before the clamp the security score is at most 80 and the
    privacy score at most 70, so [min(score, 100)] leaves both as the
    rule table summed them. *)
Theorem clamp_never_changes_scores (input_url : string) (r : SecurityAnalysis) :
  analyze_url netloc_valid session_head now input_url = Returned r ->
  let scores := calculate_scores (https r) (security_headers r) in
  scores.1.1 <= 80 /\ scores.1.2 <= 70 /\
  normalize_score scores.1.1 = scores.1.1 /\
  normalize_score scores.1.2 = scores.1.2 /\
  security_score r = scores.1.1 /\
  privacy_score r = scores.1.2.
Proof.
  intros (parsed & _ & ->)%analyze_url_Returned. cbn.
  pose proof (calculate_scores_bounds
    (String.eqb (urllib.scheme parsed) "https")
    (fetch_security_headers (session_head (normalize_url input_url)))) as H.
  cbv zeta in H. unfold normalize_score. lia.
Qed.

(** C7: the positive-feedback bands are exact.  A security score of 80 or
    more puts "Excellent security configuration!" first; a score from 60
    to 79 puts "Good security, but room for improvement" first; below 60
    neither message is in the list.  The step itself behaves so at every
    integer score, 59, 60, 79 and 80 included. *)
Theorem positive_feedback_banding (input_url : string) (r : SecurityAnalysis) :
  analyze_url netloc_valid session_head now input_url = Returned r ->
  (80 <= security_score r ->
   head (recommendations r) = Some "Excellent security configuration!") /\
  (60 <= security_score r < 80 ->
   head (recommendations r) = Some "Good security, but room for improvement") /\
  (security_score r < 60 ->
   ("Excellent security configuration!" ∉ recommendations r) /\
   ("Good security, but room for improvement" ∉ recommendations r)) /\
  (forall (score : Z) (recs : list string),
     (80 <= score ->
      add_positive_feedback score recs =
      "Excellent security configuration!" :: recs) /\
     (60 <= score < 80 ->
      add_positive_feedback score recs =
      "Good security, but room for improvement" :: recs) /\
     (score < 60 -> add_positive_feedback score recs = recs)).
Proof.
  intros (parsed & _ & ->)%analyze_url_Returned. cbn.
  set (scores := calculate_scores _ _).
  destruct (add_positive_feedback_bands (normalize_score scores.1.1) scores.2)
    as (H80 & H60 & Hlow).
  split; [|split; [|split]].
  - intros H. by rewrite (H80 H).
  - intros H. by rewrite (H60 H).
  - intros H. rewrite (Hlow H).
    split; intros Hin; apply default_if_empty_elem in Hin as [Hin|?];
      try done; by apply (calculate_scores_no_feedback _ _) in Hin.
  - apply add_positive_feedback_bands.
Qed.

(** C3: when the parser has accepted the URL and the header fetch raises,
    the analysis still returns a complete result, whose header map is
    exactly the one-entry map from "error" to "Could not fetch headers". *)
Theorem fetch_failure_still_returns (input_url : string)
  (parsed : urllib.ParseResult) :
  urllib.urlparse netloc_valid (normalize_url input_url) = Returned parsed ->
  session_head (normalize_url input_url) = aiohttp.ClientError ->
  exists r,
    analyze_url netloc_valid session_head now input_url = Returned r /\
    security_headers r = {[ "error" := "Could not fetch headers" ]} /\
    url r = normalize_url input_url /\
    https r = String.eqb (urllib.scheme parsed) "https" /\
    ssl_info r = None /\
    timestamp r = now.
Proof.
  intros Hparse Hhead.
  destruct (analyze_url_returns netloc_valid session_head now _ _ Hparse)
    as [r Hr].
  exists r. split; [done|].
  apply analyze_url_Returned in Hr as (parsed' & Hparse' & ->).
  rewrite Hparse in Hparse'. injection Hparse' as <-.
  cbn. by rewrite Hhead.
Qed.

(** C9: on a response, a header sent with an empty value is recorded as
    "Missing" and scored as absent, exactly like a header that was not
    sent; the map holds the value sent only when it is not empty. *)
Theorem empty_header_value_is_missing (input_url : string)
  (r : SecurityAnalysis) (headers : aiohttp.headers_t) (name : string) :
  analyze_url netloc_valid session_head now input_url = Returned r ->
  session_head (url r) = aiohttp.Response headers ->
  name ∈ security_header_names ->
  (aiohttp.get headers name = Some "" ->
   security_headers r !! name = Some "Missing" /\
   not_missing (security_headers r) name = false) /\
  (aiohttp.get headers name = None ->
   security_headers r !! name = Some "Missing" /\
   not_missing (security_headers r) name = false) /\
  (forall v : string,
     aiohttp.get headers name = Some v -> v <> "" ->
     security_headers r !! name = Some v).
Proof.
  intros (parsed & _ & ->)%analyze_url_Returned. cbn.
  intros -> Hname.
  rewrite not_missing_false, (fetch_security_headers_response _ _ Hname).
  split; [|split].
  - by intros ->.
  - by intros ->.
  - intros v -> Hv. by destruct v.
Qed.

(** C6: without HTTPS and with all six headers recorded as "Missing", both
    scores are 0 and the recommendations are the seven failure messages in
    the order of the rule table, with nothing in front of them. *)
Theorem nothing_passes (input_url : string) (r : SecurityAnalysis) :
  analyze_url netloc_valid session_head now input_url = Returned r ->
  https r = false ->
  (forall name, name ∈ security_header_names ->
                security_headers r !! name = Some "Missing") ->
  security_score r = 0 /\
  privacy_score r = 0 /\
  recommendations r = failure_messages.
Proof.
  intros (parsed & _ & ->)%analyze_url_Returned. cbn.
  intros -> Hmissing.
  unfold calculate_scores.
  rewrite !(proj2 (not_missing_false _ _)) by (apply Hmissing; compute_done).
  by cbn.
Qed.

(** C2, amended: on a response with none of the six headers recorded as
    "Missing" and with HTTPS, the security score is 80 (30+15+15+10+10),
    the privacy score is 70 and the recommendations are exactly the one
    message "Excellent security configuration!". *)
Theorem everything_passes (input_url : string) (r : SecurityAnalysis)
  (headers : aiohttp.headers_t) :
  analyze_url netloc_valid session_head now input_url = Returned r ->
  session_head (url r) = aiohttp.Response headers ->
  https r = true ->
  (forall name, name ∈ security_header_names ->
                security_headers r !! name <> Some "Missing") ->
  security_score r = 80 /\
  privacy_score r = 70 /\
  recommendations r = ["Excellent security configuration!"].
Proof.
  intros (parsed & _ & ->)%analyze_url_Returned. cbn.
  intros _ -> Hpresent.
  unfold calculate_scores.
  rewrite !(proj2 (not_missing_true _ _)) by (apply Hpresent; compute_done).
  by cbn.
Qed.

(** C1, amended: when the header fetch fails, the header map is the
    one-entry error map, in which none of the six header names is a key;
    the HTTPS failure message is among the recommendations exactly when
    the scheme is not https, so with https the list cannot hold all seven
    failure messages; and without https that message comes first, with no
    positive-feedback message in front of it. *)
Theorem fetch_failure_https_rule (input_url : string) (r : SecurityAnalysis) :
  analyze_url netloc_valid session_head now input_url = Returned r ->
  session_head (url r) = aiohttp.ClientError ->
  security_headers r = {[ "error" := "Could not fetch headers" ]} /\
  (forall name, name ∈ security_header_names ->
                security_headers r !! name = None) /\
  ("Site does not use HTTPS - traffic is not encrypted" ∈ recommendations r
   <-> https r = false) /\
  (https r = false ->
   head (recommendations r) =
   Some "Site does not use HTTPS - traffic is not encrypted").
Proof.
  intros (parsed & _ & ->)%analyze_url_Returned. cbn.
  intros Hhead. rewrite Hhead.
  split; [done|]. split; [apply fetch_security_headers_error|].
  apply https_rule_recommendation.
Qed.

(** What the code computes on a failed fetch: the lookups in the error map
    return [None], so each of the six header rules takes its first branch
    and only the HTTPS rule can add a failure message. *)
Lemma fetch_failure_scores (input_url : string) (r : SecurityAnalysis) :
  analyze_url netloc_valid session_head now input_url = Returned r ->
  session_head (url r) = aiohttp.ClientError ->
  if https r
  then security_score r = 80 /\ privacy_score r = 70 /\
       recommendations r = ["Excellent security configuration!"]
  else security_score r = 50 /\ privacy_score r = 50 /\
       recommendations r =
       ["Site does not use HTTPS - traffic is not encrypted"].
Proof.
  intros (parsed & _ & ->)%analyze_url_Returned. cbn.
  intros ->. unfold calculate_scores.
  rewrite !not_missing_absent
    by (apply fetch_security_headers_error; compute_done).
  by destruct (String.eqb _ _).
Qed.

(** C5: an input that begins with neither "http://" nor "https://" is
    probed as "https://" followed by the input and reported as HTTPS; an
    input that begins with one of them is probed unchanged, and is
    reported as HTTPS exactly when the parsed scheme is "https". *)
Theorem scheme_normalization (input_url : string) (r : SecurityAnalysis) :
  analyze_url netloc_valid session_head now input_url = Returned r ->
  (startswith input_url "http://" = false ->
   startswith input_url "https://" = false ->
   url r = "https://" ++ input_url /\ https r = true) /\
  (startswith input_url "http://" = true \/
   startswith input_url "https://" = true ->
   url r = input_url /\
   exists parsed,
     urllib.urlparse netloc_valid input_url = Returned parsed /\
     (https r = true <-> urllib.scheme parsed = "https")).
Proof.
  intros (parsed & Hparse & ->)%analyze_url_Returned. cbn. split.
  - intros H1 H2. rewrite (normalize_url_no_scheme _ H1 H2) in *.
    split; [done|].
    by rewrite (urlparse_https_scheme _ _ _ Hparse).
  - intros H. rewrite (normalize_url_with_scheme _ H) in *.
    split; [done|]. exists parsed. split; [done|].
    apply String.eqb_eq.
Qed.

(** The reported flag can be read off the probed URL: it is set exactly
    when that URL begins with "https://". *)
Lemma https_iff_prefix (input_url : string) (r : SecurityAnalysis) :
  analyze_url netloc_valid session_head now input_url = Returned r ->
  https r = startswith (url r) "https://".
Proof.
  intros (parsed & Hparse & ->)%analyze_url_Returned. cbn [url https].
  destruct (normalize_url_prefixed input_url) as [rest [Hn|Hn]];
    rewrite Hn in *.
  - rewrite startswith_app.
    by rewrite (urlparse_https_scheme _ _ _ Hparse).
  - by rewrite (urlparse_http_scheme _ _ _ Hparse).
Qed.

End Claims.

(** ** The analyzer on the sample environments *)

Ltac evaluated := vm_compute; reflexivity.

(** C1 fails on the code: an https URL whose header fetch fails is scored
    80, and its only recommendation is the positive-feedback message. *)
Lemma fetch_failure_scored_as_present :
  exists r,
    analyze_url accept_all unreachable 0 "example.com" = Returned r /\
    unreachable (url r) = aiohttp.ClientError /\
    r = {| url := "https://example.com";
           https := true;
           security_headers := {[ "error" := "Could not fetch headers" ]};
           ssl_info := None;
           privacy_score := 70;
           security_score := 80;
           recommendations := ["Excellent security configuration!"];
           timestamp := 0 |} /\
    ~ ((forall m, m ∈ failure_messages -> m ∈ recommendations r) /\
       ("Excellent security configuration!" ∉ recommendations r) /\
       ("Good security, but room for improvement" ∉ recommendations r) /\
       security_score r <= 30).
Proof.
  eexists. split; [|split; [|split; [reflexivity|]]].
  - evaluated.
  - reflexivity.
  - cbn [security_score]. intros (_ & _ & _ & H). lia.
Qed.

(** C2 fails on the code: with HTTPS and all six headers sent the five
    security contributions add up to 80, not to 100. *)
Lemma all_headers_https_scores_80 :
  exists r,
    analyze_url accept_all hardened_site 0 "https://example.com" = Returned r /\
    hardened_site (url r) = aiohttp.Response hardened_headers /\
    (forall name, name ∈ security_header_names ->
                  security_headers r !! name <> Some "Missing") /\
    r = {| url := "https://example.com";
           https := true;
           security_headers :=
             fetch_security_headers (aiohttp.Response hardened_headers);
           ssl_info := None;
           privacy_score := 70;
           security_score := 80;
           recommendations := ["Excellent security configuration!"];
           timestamp := 0 |} /\
    security_score r <> 100.
Proof.
  eexists. split; [|split; [|split; [|split; [reflexivity|]]]].
  - evaluated.
  - reflexivity.
  - cbn [security_headers]. intros name Hname.
    rewrite (fetch_security_headers_response _ _ Hname).
    revert name Hname. apply each_security_header; vm_compute;
      discriminate.
  - cbn [security_score]. lia.
Qed.

(** An unreachable http site: the HTTPS failure message comes first. *)
Lemma fetch_failure_https_rule_witness :
  exists r,
    analyze_url accept_all unreachable 0 "http://example.com" = Returned r /\
    security_headers r = {[ "error" := "Could not fetch headers" ]} /\
    head (recommendations r) =
    Some "Site does not use HTTPS - traffic is not encrypted".
Proof.
  assert (analyze_url accept_all unreachable 0 "http://example.com" =
          Returned
            {| url := "http://example.com";
               https := false;
               security_headers := fetch_security_headers aiohttp.ClientError;
               ssl_info := None;
               privacy_score := 50;
               security_score := 50;
               recommendations :=
                 ["Site does not use HTTPS - traffic is not encrypted"];
               timestamp := 0 |}) as Hr by evaluated.
  eexists. split; [exact Hr|].
  destruct (fetch_failure_https_rule accept_all unreachable 0
              "http://example.com" _ Hr eq_refl) as (Hmap & _ & _ & Hfirst).
  split; [exact Hmap | apply Hfirst; reflexivity].
Defined.

(** The hardened site over https: 80, 70 and the one message. *)
Lemma everything_passes_witness :
  exists r,
    analyze_url accept_all hardened_site 0 "https://example.com" = Returned r /\
    security_score r = 80 /\
    privacy_score r = 70 /\
    recommendations r = ["Excellent security configuration!"].
Proof.
  assert (analyze_url accept_all hardened_site 0 "https://example.com" =
          Returned
            {| url := "https://example.com";
               https := true;
               security_headers :=
                 fetch_security_headers (aiohttp.Response hardened_headers);
               ssl_info := None;
               privacy_score := 70;
               security_score := 80;
               recommendations := ["Excellent security configuration!"];
               timestamp := 0 |}) as Hr by evaluated.
  eexists. split; [exact Hr|].
  apply (everything_passes accept_all hardened_site 0 "https://example.com"
           _ hardened_headers Hr eq_refl eq_refl).
  cbn [security_headers]. intros name Hname.
  rewrite (fetch_security_headers_response _ _ Hname).
  revert name Hname. apply each_security_header; vm_compute;
    discriminate.
Defined.

(** An unreachable site, named without a scheme. *)
Lemma fetch_failure_still_returns_witness :
  exists r,
    analyze_url accept_all unreachable 1730000000 "example.com" = Returned r /\
    security_headers r = {[ "error" := "Could not fetch headers" ]} /\
    url r = normalize_url "example.com" /\
    https r = true /\
    ssl_info r = None /\
    timestamp r = 1730000000.
Proof.
  apply (fetch_failure_still_returns accept_all unreachable 1730000000
           "example.com"
           {| urllib.scheme := "https"; urllib.netloc := "example.com" |});
    reflexivity.
Defined.

Lemma scores_within_0_100_witness :
  exists r,
    analyze_url accept_all partly_hardened_site 0 "example.com" = Returned r /\
    (0 <= security_score r <= 100 /\ 0 <= privacy_score r <= 100).
Proof.
  assert (analyze_url accept_all partly_hardened_site 0 "example.com" =
          Returned
            {| url := "https://example.com";
               https := true;
               security_headers :=
                 fetch_security_headers
                   (partly_hardened_site "https://example.com");
               ssl_info := None;
               privacy_score := 35;
               security_score := 60;
               recommendations :=
                 [ "Good security, but room for improvement";
                   "Missing X-Frame-Options - vulnerable to clickjacking";
                   "Missing X-Content-Type-Options header";
                   "Missing Referrer-Policy - may leak information";
                   "Missing Permissions-Policy header" ];
               timestamp := 0 |}) as Hr by evaluated.
  eexists. split; [exact Hr|].
  exact (scores_within_0_100 accept_all partly_hardened_site 0 "example.com"
           _ Hr).
Defined.

(** Without a scheme the URL is probed over https; with "http://" it is
    probed as given and not reported as HTTPS. *)
Lemma scheme_normalization_witness :
  (exists r,
     analyze_url accept_all unreachable 0 "example.com/a?b#c" = Returned r /\
     url r = "https://example.com/a?b#c" /\ https r = true) /\
  (exists r,
     analyze_url accept_all unreachable 0 "http://example.com" = Returned r /\
     url r = "http://example.com" /\ https r = false).
Proof.
  split.
  - assert (analyze_url accept_all unreachable 0 "example.com/a?b#c" =
            Returned
              {| url := "https://example.com/a?b#c";
                 https := true;
                 security_headers := fetch_security_headers aiohttp.ClientError;
                 ssl_info := None;
                 privacy_score := 70;
                 security_score := 80;
                 recommendations := ["Excellent security configuration!"];
                 timestamp := 0 |}) as Hr by evaluated.
    eexists. split; [exact Hr|].
    apply (scheme_normalization accept_all unreachable 0 "example.com/a?b#c"
             _ Hr); reflexivity.
  - assert (analyze_url accept_all unreachable 0 "http://example.com" =
            Returned
              {| url := "http://example.com";
                 https := false;
                 security_headers := fetch_security_headers aiohttp.ClientError;
                 ssl_info := None;
                 privacy_score := 50;
                 security_score := 50;
                 recommendations :=
                   ["Site does not use HTTPS - traffic is not encrypted"];
                 timestamp := 0 |}) as Hr by evaluated.
    eexists. split; [exact Hr|].
    destruct (proj2 (scheme_normalization accept_all unreachable 0
                       "http://example.com" _ Hr) (or_introl eq_refl))
      as (Hurl & _).
    split; [exact Hurl | reflexivity].
Defined.

(** The bare site over http: nothing passes. *)
Lemma nothing_passes_witness :
  exists r,
    analyze_url accept_all bare_site 0 "http://example.com" = Returned r /\
    security_score r = 0 /\
    privacy_score r = 0 /\
    recommendations r = failure_messages.
Proof.
  assert (analyze_url accept_all bare_site 0 "http://example.com" =
          Returned
            {| url := "http://example.com";
               https := false;
               security_headers :=
                 fetch_security_headers (bare_site "http://example.com");
               ssl_info := None;
               privacy_score := 0;
               security_score := 0;
               recommendations := failure_messages;
               timestamp := 0 |}) as Hr by evaluated.
  eexists. split; [exact Hr|].
  apply (nothing_passes accept_all bare_site 0 "http://example.com"
           _ Hr eq_refl).
  cbn [security_headers]. intros name Hname. unfold bare_site.
  rewrite (fetch_security_headers_response _ _ Hname).
  revert name Hname. apply each_security_header; vm_compute;
    reflexivity.
Defined.

(** HTTPS, HSTS and CSP add up to exactly 60: the lower band. *)
Lemma positive_feedback_banding_witness :
  exists r,
    analyze_url accept_all partly_hardened_site 0 "example.com" = Returned r /\
    security_score r = 60 /\
    head (recommendations r) = Some "Good security, but room for improvement".
Proof.
  assert (analyze_url accept_all partly_hardened_site 0 "example.com" =
          Returned
            {| url := "https://example.com";
               https := true;
               security_headers :=
                 fetch_security_headers
                   (partly_hardened_site "https://example.com");
               ssl_info := None;
               privacy_score := 35;
               security_score := 60;
               recommendations :=
                 [ "Good security, but room for improvement";
                   "Missing X-Frame-Options - vulnerable to clickjacking";
                   "Missing X-Content-Type-Options header";
                   "Missing Referrer-Policy - may leak information";
                   "Missing Permissions-Policy header" ];
               timestamp := 0 |}) as Hr by evaluated.
  eexists. split; [exact Hr|]. split; [reflexivity|].
  destruct (positive_feedback_banding accept_all partly_hardened_site 0
              "example.com" _ Hr) as (_ & Hgood & _).
  apply Hgood. cbn [security_score]. lia.
Defined.

Lemma recommendations_nonempty_witness :
  exists r,
    analyze_url accept_all hardened_site 0 "https://example.com" = Returned r /\
    recommendations r <> [].
Proof.
  assert (analyze_url accept_all hardened_site 0 "https://example.com" =
          Returned
            {| url := "https://example.com";
               https := true;
               security_headers :=
                 fetch_security_headers (aiohttp.Response hardened_headers);
               ssl_info := None;
               privacy_score := 70;
               security_score := 80;
               recommendations := ["Excellent security configuration!"];
               timestamp := 0 |}) as Hr by evaluated.
  eexists. split; [exact Hr|].
  exact (recommendations_nonempty accept_all hardened_site 0
           "https://example.com" _ Hr).
Defined.

(** The empty X-Frame-Options value is recorded as "Missing". *)
Lemma empty_header_value_is_missing_witness :
  exists r,
    analyze_url accept_all blank_header_site 0 "example.com" = Returned r /\
    security_headers r !! "X-Frame-Options" = Some "Missing" /\
    not_missing (security_headers r) "X-Frame-Options" = false.
Proof.
  assert (analyze_url accept_all blank_header_site 0 "example.com" =
          Returned
            {| url := "https://example.com";
               https := true;
               security_headers :=
                 fetch_security_headers (aiohttp.Response blank_headers);
               ssl_info := None;
               privacy_score := 35;
               security_score := 30;
               recommendations :=
                 [ "Missing HSTS header - vulnerable to protocol downgrade attacks";
                   "Missing CSP header - vulnerable to XSS attacks";
                   "Missing X-Frame-Options - vulnerable to clickjacking";
                   "Missing X-Content-Type-Options header";
                   "Missing Permissions-Policy header" ];
               timestamp := 0 |}) as Hr by evaluated.
  eexists. split; [exact Hr|].
  destruct (empty_header_value_is_missing accept_all blank_header_site 0
              "example.com" _ blank_headers "X-Frame-Options"
              Hr eq_refl) as (Hblank & _).
  - apply list_elem_of_In. vm_compute. auto.
  - apply Hblank. reflexivity.
Defined.

Lemma clamp_never_changes_scores_witness :
  exists r,
    analyze_url accept_all hardened_site 0 "https://example.com" = Returned r /\
    let scores := calculate_scores (https r) (security_headers r) in
    scores.1.1 <= 80 /\ scores.1.2 <= 70 /\
    normalize_score scores.1.1 = scores.1.1 /\
    normalize_score scores.1.2 = scores.1.2 /\
    security_score r = scores.1.1 /\
    privacy_score r = scores.1.2.
Proof.
  assert (analyze_url accept_all hardened_site 0 "https://example.com" =
          Returned
            {| url := "https://example.com";
               https := true;
               security_headers :=
                 fetch_security_headers (aiohttp.Response hardened_headers);
               ssl_info := None;
               privacy_score := 70;
               security_score := 80;
               recommendations := ["Excellent security configuration!"];
               timestamp := 0 |}) as Hr by evaluated.
  eexists. split; [exact Hr|].
  exact (clamp_never_changes_scores accept_all hardened_site 0
           "https://example.com" _ Hr).
Defined.

(** * Further properties of the analyzer *)

(** A property of the six header rules is proved rule by rule. *)
Lemma each_header_rule (P : string -> string -> Prop) :
  P "Strict-Transport-Security"
    "Missing HSTS header - vulnerable to protocol downgrade attacks" ->
  P "Content-Security-Policy"
    "Missing CSP header - vulnerable to XSS attacks" ->
  P "X-Frame-Options"
    "Missing X-Frame-Options - vulnerable to clickjacking" ->
  P "X-Content-Type-Options" "Missing X-Content-Type-Options header" ->
  P "Referrer-Policy" "Missing Referrer-Policy - may leak information" ->
  P "Permissions-Policy" "Missing Permissions-Policy header" ->
  forall name message, (name, message) ∈ header_rules -> P name message.
Proof.
  intros ? ? ? ? ? ? name message. unfold header_rules.
  rewrite !elem_of_cons, elem_of_nil. intros Hrule.
  repeat destruct Hrule as [[= -> ->]|Hrule]; done.
Qed.

(** The final list holds the message of a header rule exactly when the
    rule's test failed. *)
Lemma header_rule_recommendation (is_https : bool)
  (security_headers : gmap string string) :
  let scores := calculate_scores is_https security_headers in
  let recommendations :=
    default_if_empty
      (add_positive_feedback (normalize_score scores.1.1) scores.2) in
  forall name message, (name, message) ∈ header_rules ->
    message ∈ recommendations <-> not_missing security_headers name = false.
Proof. cbv zeta. apply each_header_rule; rule_cases. Qed.

(** The defensive default is never used, and the "Excellent" message
    stands for the five security rules. *)
Lemma final_recommendations_feedback (is_https : bool)
  (security_headers : gmap string string) :
  let scores := calculate_scores is_https security_headers in
  let recommendations :=
    default_if_empty
      (add_positive_feedback (normalize_score scores.1.1) scores.2) in
  ("All security checks passed!" ∉ recommendations) /\
  ("Excellent security configuration!" ∈ recommendations <->
   is_https = true /\
   not_missing security_headers "Strict-Transport-Security" = true /\
   not_missing security_headers "Content-Security-Policy" = true /\
   not_missing security_headers "X-Frame-Options" = true /\
   not_missing security_headers "X-Content-Type-Options" = true) /\
  (is_https = false ->
   normalize_score scores.1.1 <= 50 /\
   ("Excellent security configuration!" ∉ recommendations) /\
   ("Good security, but room for improvement" ∉ recommendations)).
Proof. rule_cases. Qed.

(** The final list is the fixed list of messages, feedback first and then
    the rule table, cut down to the messages that apply. *)
Lemma final_recommendations_order (is_https : bool)
  (security_headers : gmap string string) :
  let scores := calculate_scores is_https security_headers in
  let recommendations :=
    default_if_empty
      (add_positive_feedback (normalize_score scores.1.1) scores.2) in
  recommendations =
  filter (fun message => message ∈ recommendations)
    ("Excellent security configuration!" ::
     "Good security, but room for improvement" :: failure_messages).
Proof. rule_cases. Qed.

Lemma final_recommendations_length (is_https : bool)
  (security_headers : gmap string string) :
  let scores := calculate_scores is_https security_headers in
  let recommendations :=
    default_if_empty
      (add_positive_feedback (normalize_score scores.1.1) scores.2) in
  (1 <= List.length recommendations <= 7)%nat.
Proof. rule_cases. Qed.

(** Each score is the sum of the contributions of the rules that pass. *)
Lemma calculate_scores_sum (is_https : bool)
  (security_headers : gmap string string) :
  let scores := calculate_scores is_https security_headers in
  scores.1.1 =
    (if is_https then 30 else 0) +
    (if not_missing security_headers "Strict-Transport-Security" then 15 else 0) +
    (if not_missing security_headers "Content-Security-Policy" then 15 else 0) +
    (if not_missing security_headers "X-Frame-Options" then 10 else 0) +
    (if not_missing security_headers "X-Content-Type-Options" then 10 else 0) /\
  scores.1.2 =
    (if is_https then 20 else 0) +
    (if not_missing security_headers "Content-Security-Policy" then 15 else 0) +
    (if not_missing security_headers "Referrer-Policy" then 15 else 0) +
    (if not_missing security_headers "Permissions-Policy" then 20 else 0).
Proof. rule_cases. Qed.

Lemma contribution_monotone (b1 b2 : bool) (points : Z) :
  0 <= points -> (b1 = true -> b2 = true) ->
  (if b1 then points else 0) <= (if b2 then points else 0).
Proof. destruct b1, b2; intros ? H; first [lia | by specialize (H eq_refl)]. Qed.

Lemma calculate_scores_monotone (https1 https2 : bool)
  (headers1 headers2 : gmap string string) :
  (https1 = true -> https2 = true) ->
  (forall name, name ∈ security_header_names ->
     not_missing headers1 name = true -> not_missing headers2 name = true) ->
  let scores1 := calculate_scores https1 headers1 in
  let scores2 := calculate_scores https2 headers2 in
  scores1.1.1 <= scores2.1.1 /\ scores1.1.2 <= scores2.1.2.
Proof.
  intros Hhttps Hheaders. cbv zeta.
  destruct (calculate_scores_sum https1 headers1) as [-> ->].
  destruct (calculate_scores_sum https2 headers2) as [-> ->].
  pose proof (contribution_monotone _ _ 30 ltac:(lia) Hhttps).
  pose proof (contribution_monotone _ _ 20 ltac:(lia) Hhttps).
  pose proof (fun name points Hname Hpoints =>
    contribution_monotone _ _ points Hpoints (Hheaders name Hname)) as Hrule.
  pose proof (Hrule "Strict-Transport-Security" 15 ltac:(compute_done) ltac:(lia)).
  pose proof (Hrule "Content-Security-Policy" 15 ltac:(compute_done) ltac:(lia)).
  pose proof (Hrule "X-Frame-Options" 10 ltac:(compute_done) ltac:(lia)).
  pose proof (Hrule "X-Content-Type-Options" 10 ltac:(compute_done) ltac:(lia)).
  pose proof (Hrule "Referrer-Policy" 15 ltac:(compute_done) ltac:(lia)).
  pose proof (Hrule "Permissions-Policy" 20 ltac:(compute_done) ltac:(lia)).
  lia.
Qed.

Lemma value_or_missing_nonempty (v : option string) :
  value_or_missing v <> "".
Proof. by destruct v as [[|c v]|]. Qed.

Lemma value_or_missing_sentinel (v : option string) :
  value_or_missing v = "Missing" <->
  v = None \/ v = Some "" \/ v = Some "Missing".
Proof.
  destruct v as [[|c v]|]; cbn.
  - split; [intros _; right; by left | done].
  - split; [intros H; right; right; by f_equal|].
    intros [?|[?|?]]; congruence.
  - split; [intros _; by left | done].
Qed.

Lemma normalize_url_idempotent (input_url : string) :
  normalize_url (normalize_url input_url) = normalize_url input_url.
Proof.
  destruct (normalize_url_prefixed input_url) as [rest [H|H]]; rewrite H.
  - apply normalize_url_with_scheme. right. apply startswith_app.
  - apply normalize_url_with_scheme. left. apply startswith_app.
Qed.

Section AnalyzerExtras.

Variable netloc_valid : string -> bool.
Variable session_head : string -> aiohttp.head_outcome.
Variable now : Z.

(** X1: the flag [https] is set exactly when the probed URL begins with
    "https://", letter for letter: an input written "HTTPS://..." gets the
    prefix put in front of it like any other. *)
Theorem https_flag_is_url_prefix (input_url : string) (r : SecurityAnalysis) :
  analyze_url netloc_valid session_head now input_url = Returned r ->
  (startswith (url r) "http://" = true \/
   startswith (url r) "https://" = true) /\
  https r = startswith (url r) "https://".
Proof.
  intros (parsed & Hparse & ->)%analyze_url_Returned. cbn [url https].
  destruct (normalize_url_prefixed input_url) as [rest [Hn|Hn]];
    rewrite Hn in *.
  - rewrite startswith_app. split; [by right|].
    by rewrite (urlparse_https_scheme _ _ _ Hparse).
  - rewrite startswith_app. split; [by left|].
    by rewrite (urlparse_http_scheme _ _ _ Hparse).
Qed.

(** X2: the message of a header rule is among the recommendations exactly
    when the header map binds the rule's header to "Missing". *)
Theorem failure_message_iff_missing (input_url : string)
  (r : SecurityAnalysis) (name message : string) :
  analyze_url netloc_valid session_head now input_url = Returned r ->
  (name, message) ∈ header_rules ->
  message ∈ recommendations r <->
  security_headers r !! name = Some "Missing".
Proof.
  intros (parsed & _ & ->)%analyze_url_Returned Hrule.
  cbn [recommendations security_headers].
  rewrite <- not_missing_false.
  by apply header_rule_recommendation.
Qed.

(** X3: on a response, the message of a header rule is recommended exactly
    when the header was not sent, was sent empty, or was sent with the
    literal value "Missing", which the sentinel cannot be told from. *)
Theorem failure_message_iff_not_sent (input_url : string)
  (r : SecurityAnalysis) (headers : aiohttp.headers_t)
  (name message : string) :
  analyze_url netloc_valid session_head now input_url = Returned r ->
  session_head (url r) = aiohttp.Response headers ->
  (name, message) ∈ header_rules ->
  message ∈ recommendations r <->
  aiohttp.get headers name = None \/
  aiohttp.get headers name = Some "" \/
  aiohttp.get headers name = Some "Missing".
Proof.
  intros (parsed & _ & ->)%analyze_url_Returned.
  cbn [url recommendations]. intros Hhead Hrule.
  rewrite (header_rule_recommendation _ _ _ _ Hrule), not_missing_false, Hhead.
  rewrite fetch_security_headers_response.
  - rewrite <- value_or_missing_sentinel. split; congruence.
  - revert name message Hrule. apply each_header_rule; compute_done.
Qed.

(** X4: "All security checks passed!" is never returned: a list with no
    failure message has a security score of 80 and gets the "Excellent"
    message instead. *)
Theorem default_message_never_returned (input_url : string)
  (r : SecurityAnalysis) :
  analyze_url netloc_valid session_head now input_url = Returned r ->
  "All security checks passed!" ∉ recommendations r.
Proof.
  intros (parsed & _ & ->)%analyze_url_Returned. cbn [recommendations].
  apply final_recommendations_feedback.
Qed.

(** X5: "Excellent security configuration!" is recommended exactly when
    the scheme is https and none of the four headers that count for the
    security score is bound to "Missing"; Referrer-Policy and
    Permissions-Policy play no part.  Without https the security score
    is at most 50 and no positive feedback is given. *)
Theorem excellent_iff_security_rules (input_url : string)
  (r : SecurityAnalysis) :
  analyze_url netloc_valid session_head now input_url = Returned r ->
  ("Excellent security configuration!" ∈ recommendations r <->
   https r = true /\
   security_headers r !! "Strict-Transport-Security" <> Some "Missing" /\
   security_headers r !! "Content-Security-Policy" <> Some "Missing" /\
   security_headers r !! "X-Frame-Options" <> Some "Missing" /\
   security_headers r !! "X-Content-Type-Options" <> Some "Missing") /\
  (https r = false ->
   security_score r <= 50 /\
   ("Excellent security configuration!" ∉ recommendations r) /\
   ("Good security, but room for improvement" ∉ recommendations r)).
Proof.
  intros (parsed & _ & ->)%analyze_url_Returned.
  cbn [recommendations security_headers https security_score].
  rewrite <- !not_missing_true.
  split; apply final_recommendations_feedback.
Qed.

(** X6: the recommendations are in a fixed order without repetition:
    positive feedback first, then the failure messages in the order of
    the rule table; so there are at most seven of them. *)
Theorem recommendations_in_table_order (input_url : string)
  (r : SecurityAnalysis) :
  analyze_url netloc_valid session_head now input_url = Returned r ->
  recommendations r `sublist_of`
    ("Excellent security configuration!" ::
     "Good security, but room for improvement" :: failure_messages) /\
  NoDup (recommendations r) /\
  (List.length (recommendations r) <= 7)%nat.
Proof.
  intros (parsed & _ & ->)%analyze_url_Returned. cbn [recommendations].
  set (scores := calculate_scores _ _).
  set (l := default_if_empty _).
  assert (l `sublist_of`
            ("Excellent security configuration!" ::
             "Good security, but room for improvement" :: failure_messages))
    as Hsub.
  { subst l scores. rewrite final_recommendations_order.
    apply sublist_filter. }
  split; [exact Hsub|]. split.
  - refine (sublist_NoDup _ _ _ Hsub). compute_done.
  - apply final_recommendations_length.
Qed.

(** X7: on a response the header map has exactly the six header names as
    keys, and whatever the outcome of the fetch no value in the map is
    the empty string. *)
Theorem security_headers_keys (input_url : string) (r : SecurityAnalysis) :
  analyze_url netloc_valid session_head now input_url = Returned r ->
  (forall headers,
     session_head (url r) = aiohttp.Response headers ->
     dom (security_headers r) = list_to_set security_header_names) /\
  (forall name value,
     security_headers r !! name = Some value -> value <> "").
Proof.
  intros (parsed & _ & ->)%analyze_url_Returned.
  cbn [url security_headers]. split.
  - intros headers ->. cbn [fetch_security_headers].
    unfold present_or_missing, security_header_checks. cbn [foldl fst snd].
    rewrite !dom_insert_L, dom_empty_L. unfold security_header_names.
    cbn [list_to_set foldr]. set_solver.
  - destruct (session_head _) as [headers|]; cbn [fetch_security_headers].
    + unfold present_or_missing, security_header_checks. cbn [foldl fst snd].
      intros name value.
      rewrite !lookup_insert, lookup_empty.
      repeat case_decide; intros [= <-]; apply value_or_missing_nonempty.
    + intros name value. rewrite lookup_singleton.
      case_decide; by intros [= <-].
Qed.

(** X8: the URL of a returned analysis is already normalized: submitted
    again under the same conditions it yields the same analysis. *)
Theorem analyze_url_again (input_url : string) (r : SecurityAnalysis) :
  analyze_url netloc_valid session_head now input_url = Returned r ->
  analyze_url netloc_valid session_head now (url r) = Returned r.
Proof.
  intros Hr.
  assert (url r = normalize_url input_url) as ->.
  { by apply analyze_url_Returned in Hr as (parsed & _ & ->). }
  unfold analyze_url in *. by rewrite normalize_url_idempotent.
Qed.

(** X9: [urlparse] is called before the [try] block, so a bracket without
    its partner in the network location (the text after "//" up to the
    first of "/", "?" and "#", tabs and line ends removed) makes the
    analysis raise [ValueError], whatever the network would answer. *)
Theorem unmatched_bracket_raises (input_url rest : string) :
  normalize_url input_url = "https://" ++ rest \/
  normalize_url input_url = "http://" ++ rest ->
  contains "[" (urllib.take_netloc (urllib.remove_unsafe rest)) <>
  contains "]" (urllib.take_netloc (urllib.remove_unsafe rest)) ->
  analyze_url netloc_valid session_head now input_url = Raised ValueError.
Proof.
  intros Hurl Hbracket. unfold analyze_url, urllib.urlparse.
  destruct Hurl as [-> | ->]; [rewrite urlsplit_https | rewrite urlsplit_http];
    cbv zeta;
    destruct (contains "[" _), (contains "]" _); done.
Qed.

End AnalyzerExtras.

(** X10: doing better on every rule never lowers a score: if the second
    analysis has https whenever the first has, and has each header
    unless the first lacks it too, both its scores are at least those of
    the first. *)
Theorem scores_monotone
  (netloc_valid1 netloc_valid2 : string -> bool)
  (session_head1 session_head2 : string -> aiohttp.head_outcome)
  (now1 now2 : Z) (input_url1 input_url2 : string)
  (r1 r2 : SecurityAnalysis) :
  analyze_url netloc_valid1 session_head1 now1 input_url1 = Returned r1 ->
  analyze_url netloc_valid2 session_head2 now2 input_url2 = Returned r2 ->
  (https r1 = true -> https r2 = true) ->
  (forall name, name ∈ security_header_names ->
     security_headers r2 !! name = Some "Missing" ->
     security_headers r1 !! name = Some "Missing") ->
  security_score r1 <= security_score r2 /\
  privacy_score r1 <= privacy_score r2.
Proof.
  intros (parsed1 & _ & ->)%analyze_url_Returned.
  intros (parsed2 & _ & ->)%analyze_url_Returned.
  cbn [https security_headers security_score privacy_score].
  intros Hhttps Hheaders.
  pose proof (calculate_scores_monotone _ _
    (fetch_security_headers (session_head1 (normalize_url input_url1)))
    (fetch_security_headers (session_head2 (normalize_url input_url2)))
    Hhttps) as H.
  cbv zeta in H. unfold normalize_score.
  enough (forall name, name ∈ security_header_names ->
            not_missing
              (fetch_security_headers
                 (session_head1 (normalize_url input_url1))) name = true ->
            not_missing
              (fetch_security_headers
                 (session_head2 (normalize_url input_url2))) name = true)
    as Hnm by (specialize (H Hnm); lia).
  intros name Hname. rewrite !not_missing_true.
  intros H1 H2. by apply H1, Hheaders.
Qed.

(** * Properties of the stored records *)

(** ** Collections *)

Section CollectionFacts.

Context {D : Type}.
Implicit Types (matches : D -> bool) (docs : list D).

Lemma find_one_None matches docs :
  mongo.find_one matches docs = None <->
  forall doc, doc ∈ docs -> matches doc = false.
Proof.
  induction docs as [|d docs IH]; cbn.
  - split; [by intros _ doc ?%elem_of_nil | done].
  - destruct (matches d) eqn:Hd.
    + split; [done|]. intros H. specialize (H d (list_elem_of_here _ _)).
      congruence.
    + rewrite IH. split.
      * intros H doc [->|?]%elem_of_cons; auto.
      * intros H doc ?. apply H. by apply list_elem_of_further.
Qed.

(** The first match splits the collection. *)
Lemma find_one_Some matches docs doc :
  mongo.find_one matches docs = Some doc <->
  exists before after,
    docs = (before ++ doc :: after)%list /\
    matches doc = true /\
    forall other, other ∈ before -> matches other = false.
Proof.
  revert doc. induction docs as [|d docs IH]; intros doc; cbn.
  - split; [done|]. intros (before & after & H & _). by destruct before.
  - destruct (matches d) eqn:Hd.
    + split.
      * intros [= <-]. exists [], docs. split; [done|]. split; [done|].
        by intros other ?%elem_of_nil.
      * intros ([|b before] & after & H & Hdoc & Hbefore).
        -- by injection H as -> _.
        -- injection H as -> _.
           pose proof (Hbefore b (list_elem_of_here _ _)). congruence.
    + rewrite IH. split.
      * intros (before & after & -> & Hdoc & Hbefore).
        exists (d :: before), after. split; [done|]. split; [done|].
        intros other [->|?]%elem_of_cons; auto.
      * intros ([|b before] & after & H & Hdoc & Hbefore).
        -- injection H as -> _. congruence.
        -- injection H as -> ->. exists before, after.
           split; [done|]. split; [done|].
           intros other ?. apply Hbefore. by apply list_elem_of_further.
Qed.

Lemma delete_one_no_match matches docs :
  (forall doc, doc ∈ docs -> matches doc = false) ->
  mongo.delete_one matches docs = (docs, 0).
Proof.
  induction docs as [|d docs IH]; intros H; cbn; [done|].
  rewrite (H d (list_elem_of_here _ _)), IH; [done|].
  intros doc ?. apply H. by apply list_elem_of_further.
Qed.

Lemma delete_one_first_match matches before doc after :
  (forall other, other ∈ before -> matches other = false) ->
  matches doc = true ->
  mongo.delete_one matches (before ++ doc :: after) =
  ((before ++ after)%list, 1).
Proof.
  induction before as [|b before IH]; intros Hbefore Hdoc; cbn.
  - by rewrite Hdoc.
  - rewrite (Hbefore b (list_elem_of_here _ _)), IH; [done| |done].
    intros other ?. apply Hbefore. by apply list_elem_of_further.
Qed.

Lemma update_one_first_match matches update before doc after :
  (forall other, other ∈ before -> matches other = false) ->
  matches doc = true ->
  mongo.update_one matches update (before ++ doc :: after) =
  (before ++ update doc :: after)%list.
Proof.
  induction before as [|b before IH]; intros Hbefore Hdoc; cbn.
  - by rewrite Hdoc.
  - rewrite (Hbefore b (list_elem_of_here _ _)), IH; [done| |done].
    intros other ?. apply Hbefore. by apply list_elem_of_further.
Qed.

Lemma to_list_nonnegative (length : Z) docs :
  0 <= length ->
  mongo.to_list length docs = Returned (take (Z.to_nat length) docs).
Proof. intros H. unfold mongo.to_list. by destruct (Z.ltb_spec length 0); [lia|]. Qed.

End CollectionFacts.

(** ** Tabs *)

Lemma create_tab_Reply (uuid4 : string) (now : Z) (input : TabCreate.t)
  (tabs tabs' : list TabDoc.t) (tab : Tab.t) :
  create_tab uuid4 now input tabs = (Reply tab, tabs') ->
  exists title favicon,
    TabCreate.title input = Some title /\
    TabCreate.favicon input = Some favicon /\
    tab = {| Tab.id := uuid4;
             Tab.url := TabCreate.url input;
             Tab.title := title;
             Tab.favicon := favicon;
             Tab.created_at := now |} /\
    tabs' = (tabs ++ [Tab_dump tab])%list.
Proof.
  unfold create_tab, Tab_of_input.
  destruct (TabCreate.title input) as [title|],
    (TabCreate.favicon input) as [favicon|]; intros [= <- <-]; eauto 6.
Qed.

(** A tab read back from its stored dictionary is the tab that was
    dumped. *)
Lemma Tab_of_doc_dump (tab : Tab.t) : Tab_of_doc (Tab_dump tab) = tab.
Proof. by destruct tab. Qed.

(** X11: a tab whose [title] or [favicon] is sent as null is refused with a
    validation error, and nothing is stored. *)
Theorem create_tab_null_field (uuid4 : string) (now : Z)
  (input : TabCreate.t) (tabs : list TabDoc.t) :
  TabCreate.title input = None \/ TabCreate.favicon input = None ->
  create_tab uuid4 now input tabs = (Failed ValidationError, tabs).
Proof.
  unfold create_tab, Tab_of_input.
  intros [-> | ->]; [done|]. by destruct (TabCreate.title input).
Qed.

(** X12: while fewer than 100 tabs are stored, the list of tabs after a
    creation is the list before it followed by the tab that the creation
    returned, with the same identifier and the same time. *)
Theorem create_tab_then_get_tabs (uuid4 : string) (now : Z)
  (input : TabCreate.t) (tabs tabs' : list TabDoc.t) (tab : Tab.t) :
  create_tab uuid4 now input tabs = (Reply tab, tabs') ->
  (List.length tabs < 100)%nat ->
  exists listed,
    get_tabs tabs = Reply listed /\
    get_tabs tabs' = Reply (listed ++ [tab])%list.
Proof.
  intros (title & favicon & _ & _ & _ & ->)%create_tab_Reply Hlen.
  exists (map Tab_of_doc tabs). unfold get_tabs.
  rewrite !to_list_nonnegative by lia.
  rewrite !take_ge by (rewrite ?length_app; cbn; lia).
  rewrite map_app. cbn [map]. by rewrite Tab_of_doc_dump.
Qed.

(** X13: [get_tabs] never fails and lists the first 100 tabs at most; once
    100 tabs are stored, a tab created afterwards is stored but does not
    appear in the list. *)
Theorem get_tabs_first_100 (tabs : list TabDoc.t) :
  exists listed,
    get_tabs tabs = Reply listed /\
    List.length listed = Nat.min 100 (List.length tabs) /\
    forall uuid4 now input tab tabs',
      (100 <= List.length tabs)%nat ->
      create_tab uuid4 now input tabs = (Reply tab, tabs') ->
      get_tabs tabs' = Reply listed.
Proof.
  exists (map Tab_of_doc (take 100 tabs)). unfold get_tabs.
  rewrite to_list_nonnegative by lia. split; [done|]. split.
  - by rewrite length_map, length_take.
  - intros uuid4 now input tab tabs' Hlen
      (title & favicon & _ & _ & _ & ->)%create_tab_Reply.
    rewrite to_list_nonnegative by lia.
    change (Z.to_nat 100) with 100%nat.
    by rewrite take_app_le by lia.
Qed.

(** X14: deleting an identifier that no stored tab has raises the 404
    "Tab not found" and leaves the tabs as they were. *)
Theorem delete_tab_unknown_id (tab_id : string) (tabs : list TabDoc.t) :
  (forall tab, tab ∈ tabs -> TabDoc.id tab <> tab_id) ->
  delete_tab tab_id tabs =
  (Failed (HTTPException 404 "Tab not found"), tabs).
Proof.
  intros H. unfold delete_tab.
  rewrite delete_one_no_match; [done|].
  intros tab Htab. by apply String.eqb_neq, H.
Qed.

(** X15: deleting an identifier removes the first stored tab that has it
    and no other, whatever identifiers the later tabs have. *)
Theorem delete_tab_known_id (tab_id : string)
  (before after : list TabDoc.t) (tab : TabDoc.t) :
  (forall other, other ∈ before -> TabDoc.id other <> tab_id) ->
  TabDoc.id tab = tab_id ->
  delete_tab tab_id (before ++ tab :: after) =
  (Reply {[ "message" := "Tab deleted" ]}, (before ++ after)%list).
Proof.
  intros Hbefore Htab. unfold delete_tab.
  rewrite delete_one_first_match; [done| |by apply String.eqb_eq].
  intros other Hother. by apply String.eqb_neq, Hbefore.
Qed.

(** X16: a tab created under a fresh identifier and then deleted by the
    identifier that the creation returned leaves the tabs as they were
    before both calls. *)
Theorem create_tab_then_delete_tab (uuid4 : string) (now : Z)
  (input : TabCreate.t) (tabs tabs' : list TabDoc.t) (tab : Tab.t) :
  (forall other, other ∈ tabs -> TabDoc.id other <> uuid4) ->
  create_tab uuid4 now input tabs = (Reply tab, tabs') ->
  delete_tab (Tab.id tab) tabs' =
  (Reply {[ "message" := "Tab deleted" ]}, tabs).
Proof.
  intros Hfresh (title & favicon & _ & _ & -> & ->)%create_tab_Reply.
  cbn [Tab.id]. unfold delete_tab.
  rewrite delete_one_first_match.
  - by rewrite app_nil_r.
  - intros other Hother. by apply String.eqb_neq, Hfresh.
  - by apply String.eqb_eq.
Qed.

(** ** History *)

Section CollectionUpdates.

Context {D : Type}.
Implicit Types (matches : D -> bool) (update : D -> D) (docs : list D).

Lemma find_one_app matches docs1 docs2 :
  mongo.find_one matches (docs1 ++ docs2) =
  match mongo.find_one matches docs1 with
  | Some doc => Some doc
  | None => mongo.find_one matches docs2
  end.
Proof.
  induction docs1 as [|d docs1 IH]; cbn; [done|].
  by destruct (matches d).
Qed.

(** An update that keeps the matched field: the query finds the updated
    document. *)
Lemma find_one_update_one_same matches update docs :
  (forall doc, matches (update doc) = matches doc) ->
  mongo.find_one matches (mongo.update_one matches update docs) =
  update <$> mongo.find_one matches docs.
Proof.
  intros Hkeep. induction docs as [|d docs IH]; cbn; [done|].
  destruct (matches d) eqn:Hd; cbn.
  - by rewrite Hkeep, Hd.
  - by rewrite Hd.
Qed.

(** A query for something else does not see the update. *)
Lemma find_one_update_one_other matches matches' update docs :
  (forall doc, matches' (update doc) = matches' doc) ->
  (forall doc, matches doc = true -> matches' doc = false) ->
  mongo.find_one matches' (mongo.update_one matches update docs) =
  mongo.find_one matches' docs.
Proof.
  intros Hkeep Hother. induction docs as [|d docs IH]; cbn; [done|].
  destruct (matches d) eqn:Hd; cbn.
  - by rewrite Hkeep, (Hother d Hd).
  - by rewrite IH.
Qed.

Lemma map_update_one {K : Type} (key : D -> K) matches update docs :
  (forall doc, key (update doc) = key doc) ->
  map key (mongo.update_one matches update docs) = map key docs.
Proof.
  intros Hkeep. induction docs as [|d docs IH]; cbn; [done|].
  destruct (matches d); cbn; by rewrite ?Hkeep, ?IH.
Qed.

End CollectionUpdates.

Lemma url_is_true (url : string) (entry : HistoryDoc.t) :
  url_is url entry = true <-> HistoryDoc.url entry = url.
Proof. apply String.eqb_eq. Qed.

Lemma url_is_false (url : string) (entry : HistoryDoc.t) :
  url_is url entry = false <-> HistoryDoc.url entry <> url.
Proof. apply String.eqb_neq. Qed.

(** The two paths of [add_history]. *)
Lemma add_history_known (uuid4 : string) (now later : Z)
  (input : HistoryCreate.t) (history : list HistoryDoc.t)
  (existing : HistoryDoc.t) :
  mongo.find_one (url_is (HistoryCreate.url input)) history = Some existing ->
  add_history uuid4 now later input history =
  (Reply {| HistoryEntry.id := HistoryDoc.id existing;
            HistoryEntry.url := HistoryDoc.url existing;
            HistoryEntry.title := HistoryDoc.title existing;
            HistoryEntry.favicon := HistoryDoc.favicon existing;
            HistoryEntry.visit_time := later;
            HistoryEntry.visit_count := HistoryDoc.visit_count existing + 1 |},
   mongo.update_one (url_is (HistoryCreate.url input))
     (set_time_inc_count now) history).
Proof. intros H. unfold add_history. by rewrite H. Qed.

Lemma add_history_new (uuid4 : string) (now later : Z)
  (input : HistoryCreate.t) (history : list HistoryDoc.t) :
  mongo.find_one (url_is (HistoryCreate.url input)) history = None ->
  add_history uuid4 now later input history =
  match HistoryCreate.favicon input with
  | Some favicon =>
      let history_obj :=
        {| HistoryEntry.id := uuid4;
           HistoryEntry.url := HistoryCreate.url input;
           HistoryEntry.title := HistoryCreate.title input;
           HistoryEntry.favicon := favicon;
           HistoryEntry.visit_time := now;
           HistoryEntry.visit_count := 1 |} in
      (Reply history_obj, (history ++ [HistoryEntry_dump history_obj])%list)
  | None => (Failed ValidationError, history)
  end.
Proof.
  intros H. unfold add_history, HistoryEntry_of_input. rewrite H.
  by destruct (HistoryCreate.favicon input).
Qed.

(** What one call adds to the count recorded for a URL. *)
Lemma visits_recorded_add_history (url uuid4 : string) (now later : Z)
  (input : HistoryCreate.t) (history : list HistoryDoc.t) :
  HistoryCreate.favicon input <> None ->
  visits_recorded url (add_history uuid4 now later input history).2 =
  visits_recorded url history +
  (if String.eqb (HistoryCreate.url input) url then 1 else 0).
Proof.
  intros Hfavicon. unfold visits_recorded.
  destruct (mongo.find_one (url_is (HistoryCreate.url input)) history)
    as [existing|] eqn:Hfind.
  - rewrite (add_history_known _ _ _ _ _ _ Hfind). cbn [snd].
    destruct (String.eqb_spec (HistoryCreate.url input) url) as [<-|Hne].
    + rewrite find_one_update_one_same by done. by rewrite Hfind.
    + rewrite find_one_update_one_other; [by rewrite Z.add_0_r|done|].
      intros doc Hdoc%url_is_true. apply url_is_false. congruence.
  - rewrite (add_history_new _ _ _ _ _ Hfind).
    destruct (HistoryCreate.favicon input) as [favicon|]; [|done].
    cbn [snd]. rewrite find_one_app. cbn.
    destruct (String.eqb_spec (HistoryCreate.url input) url) as [<-|Hne].
    + by rewrite Hfind.
    + by destruct (mongo.find_one (url_is url) history); rewrite ?Z.add_0_r.
Qed.

(** X17: [add_history] keeps one entry per URL: if no two stored entries
    share a URL before the call, none do after it. *)
Theorem add_history_keeps_urls_unique (uuid4 : string) (now later : Z)
  (input : HistoryCreate.t) (history : list HistoryDoc.t) :
  NoDup (map HistoryDoc.url history) ->
  NoDup (map HistoryDoc.url (add_history uuid4 now later input history).2).
Proof.
  intros Hunique.
  destruct (mongo.find_one (url_is (HistoryCreate.url input)) history)
    as [existing|] eqn:Hfind.
  - rewrite (add_history_known _ _ _ _ _ _ Hfind). cbn [snd].
    by rewrite map_update_one.
  - rewrite (add_history_new _ _ _ _ _ Hfind).
    destruct (HistoryCreate.favicon input) as [favicon|]; [|done].
    cbn [snd]. rewrite map_app. cbn.
    apply NoDup_app. split; [done|]. split; [|apply NoDup_singleton].
    intros url Hstored Hposted%list_elem_of_singleton.
    apply list_elem_of_In, in_map_iff in Hstored
      as (entry & Hurl & Hentry%list_elem_of_In).
    rewrite find_one_None in Hfind.
    specialize (Hfind entry Hentry). apply url_is_false in Hfind.
    congruence.
Qed.

(** X18: a visit to a URL that is already stored returns the stored entry
    with its identifier, title and favicon, the count raised by one; the
    title and the favicon that were posted are not used, a null favicon
    included.  In the store the first entry of that URL gets the new time
    and count, and nothing else changes. *)
Theorem add_history_known_url (uuid4 : string) (now later : Z)
  (input : HistoryCreate.t) (before after : list HistoryDoc.t)
  (entry : HistoryDoc.t) :
  (forall other, other ∈ before ->
                 HistoryDoc.url other <> HistoryCreate.url input) ->
  HistoryDoc.url entry = HistoryCreate.url input ->
  add_history uuid4 now later input (before ++ entry :: after) =
  (Reply {| HistoryEntry.id := HistoryDoc.id entry;
            HistoryEntry.url := HistoryCreate.url input;
            HistoryEntry.title := HistoryDoc.title entry;
            HistoryEntry.favicon := HistoryDoc.favicon entry;
            HistoryEntry.visit_time := later;
            HistoryEntry.visit_count := HistoryDoc.visit_count entry + 1 |},
   (before ++
    {| HistoryDoc.id := HistoryDoc.id entry;
       HistoryDoc.url := HistoryCreate.url input;
       HistoryDoc.title := HistoryDoc.title entry;
       HistoryDoc.favicon := HistoryDoc.favicon entry;
       HistoryDoc.visit_time := IsoText now;
       HistoryDoc.visit_count := HistoryDoc.visit_count entry + 1 |}
    :: after)%list).
Proof.
  intros Hbefore Hentry.
  assert (forall other, other ∈ before ->
            url_is (HistoryCreate.url input) other = false) as Hbefore'.
  { intros other Hother. by apply url_is_false, Hbefore. }
  apply url_is_true in Hentry as Hentry'.
  rewrite (add_history_known _ _ _ _ _ entry).
  - rewrite update_one_first_match by done.
    unfold set_time_inc_count. by rewrite Hentry.
  - apply find_one_Some. eauto 6.
Qed.

(** X19: the store counts visits.  After a run of visits, each with a
    favicon, the count recorded for a URL is the count recorded before
    plus the number of visits to that URL in the run. *)
Theorem visit_count_counts_visits
  (requests : list (string * Z * Z * HistoryCreate.t))
  (history : list HistoryDoc.t) (url : string) :
  (forall request, request ∈ requests ->
                   HistoryCreate.favicon request.2 <> None) ->
  visits_recorded url (add_history_each requests history) =
  visits_recorded url history +
  Z.of_nat
    (List.length
       (filter (fun request => HistoryCreate.url request.2 = url) requests)).
Proof.
  revert history.
  induction requests as [|[[[uuid4 now] later] input] requests IH];
    intros history Hfavicon; cbn [add_history_each].
  - cbn. lia.
  - rewrite IH.
    + rewrite visits_recorded_add_history.
      * rewrite filter_cons. cbn [snd].
        destruct (String.eqb_spec (HistoryCreate.url input) url);
          case_decide; try done; cbn [List.length]; lia.
      * apply (Hfavicon (uuid4, now, later, input)), list_elem_of_here.
    + intros request Hrequest. by apply Hfavicon, list_elem_of_further.
Qed.

(** X20: the entry that [add_history] returns is the entry that a query
    for its URL then finds in the store, field by field, except for the
    visit time on a known URL: the store holds the first reading of the
    clock and the reply the second. *)
Theorem add_history_reply_is_stored (uuid4 : string) (now later : Z)
  (input : HistoryCreate.t) (history history' : list HistoryDoc.t)
  (entry : HistoryEntry.t) :
  add_history uuid4 now later input history = (Reply entry, history') ->
  exists stored,
    mongo.find_one (url_is (HistoryCreate.url input)) history' = Some stored /\
    HistoryDoc.id stored = HistoryEntry.id entry /\
    HistoryDoc.url stored = HistoryEntry.url entry /\
    HistoryDoc.title stored = HistoryEntry.title entry /\
    HistoryDoc.favicon stored = HistoryEntry.favicon entry /\
    HistoryDoc.visit_count stored = HistoryEntry.visit_count entry /\
    HistoryDoc.visit_time stored = IsoText now /\
    HistoryEntry.visit_time entry =
    match mongo.find_one (url_is (HistoryCreate.url input)) history with
    | Some _ => later
    | None => now
    end.
Proof.
  destruct (mongo.find_one (url_is (HistoryCreate.url input)) history)
    as [existing|] eqn:Hfind.
  - rewrite (add_history_known _ _ _ _ _ _ Hfind). intros [= <- <-].
    rewrite find_one_update_one_same, Hfind by done.
    eexists. split; [done|]. by cbn.
  - rewrite (add_history_new _ _ _ _ _ Hfind).
    destruct (HistoryCreate.favicon input) as [favicon|]; [|done].
    intros [= <- <-]. rewrite find_one_app, Hfind. cbn.
    unfold url_is. cbn. rewrite String.eqb_refl.
    eexists. split; [done|]. by cbn.
Qed.

(** X21: the first visit to a URL with a null favicon is refused with a
    validation error, and nothing is stored. *)
Theorem add_history_null_favicon (uuid4 : string) (now later : Z)
  (input : HistoryCreate.t) (history : list HistoryDoc.t) :
  (forall entry, entry ∈ history ->
                 HistoryDoc.url entry <> HistoryCreate.url input) ->
  HistoryCreate.favicon input = None ->
  add_history uuid4 now later input history =
  (Failed ValidationError, history).
Proof.
  intros Hnew Hfavicon. rewrite add_history_new.
  - by rewrite Hfavicon.
  - apply find_one_None. intros entry Hentry. by apply url_is_false, Hnew.
Qed.

(** X22: [delete_history] either raises the 404 "History entry not found",
    when no entry has the identifier, and leaves the history as it was;
    or it removes one entry, the first with that identifier, and no
    other. *)
Theorem delete_history_outcome (history_id : string)
  (history history' : list HistoryDoc.t)
  (result : reply (gmap string string)) :
  delete_history history_id history = (result, history') ->
  (result = Failed (HTTPException 404 "History entry not found") /\
   history' = history /\
   forall entry, entry ∈ history -> HistoryDoc.id entry <> history_id) \/
  (result = Reply {[ "message" := "History entry deleted" ]} /\
   exists before entry after,
     history = (before ++ entry :: after)%list /\
     HistoryDoc.id entry = history_id /\
     (forall other, other ∈ before -> HistoryDoc.id other <> history_id) /\
     history' = (before ++ after)%list).
Proof.
  unfold delete_history.
  set (matches := fun entry => String.eqb (HistoryDoc.id entry) history_id).
  destruct (mongo.find_one matches history) as [entry|] eqn:Hfind.
  - apply find_one_Some in Hfind as (before & after & -> & Hentry & Hbefore).
    rewrite delete_one_first_match by done. cbn. intros [= <- <-].
    right. split; [done|]. exists before, entry, after.
    split; [done|]. split; [by apply String.eqb_eq|]. split; [|done].
    intros other Hother. by apply String.eqb_neq, Hbefore.
  - rewrite find_one_None in Hfind.
    rewrite delete_one_no_match by done. cbn. intros [= <- <-].
    left. split; [done|]. split; [done|].
    intros entry Hentry. by apply String.eqb_neq, Hfind.
Qed.

(** X23: a cleared history holds nothing of a URL any more: a visit after
    [clear_history] is stored as a first visit, under the new identifier
    and with count 1, whatever was recorded before. *)
Theorem clear_history_forgets (uuid4 favicon : string) (now later : Z)
  (input : HistoryCreate.t) (history : list HistoryDoc.t) :
  HistoryCreate.favicon input = Some favicon ->
  let entry :=
    {| HistoryEntry.id := uuid4;
       HistoryEntry.url := HistoryCreate.url input;
       HistoryEntry.title := HistoryCreate.title input;
       HistoryEntry.favicon := favicon;
       HistoryEntry.visit_time := now;
       HistoryEntry.visit_count := 1 |} in
  add_history uuid4 now later input (clear_history history).2 =
  (Reply entry, [HistoryEntry_dump entry]).
Proof. intros Hfavicon. unfold add_history, HistoryEntry_of_input. cbn. by rewrite Hfavicon. Qed.

Lemma instant_fromisoformat_if_str (v : stored_time) :
  instant (fromisoformat_if_str v) = instant v.
Proof. by destruct v. Qed.

Section GetHistoryFacts.

Variable sort_by_visit_time_desc : list HistoryDoc.t -> list HistoryDoc.t.

(** What the store's sort is relied on for: it returns the documents it
    was given, each at least as new as all that follow it. *)
Hypothesis sort_permutation :
  forall history, sort_by_visit_time_desc history ≡ₚ history.
Hypothesis sort_sorted :
  forall history, StronglySorted newer_first (sort_by_visit_time_desc history).

(** X24: a negative [limit] makes [get_history] fail with the cursor's
    [ValueError].  Otherwise it returns [limit] entries, or all of them
    when fewer are stored; each is a stored entry, and each is at least
    as new as all the entries after it. *)
Theorem get_history_limit (limit : Z) (history : list HistoryDoc.t) :
  (limit < 0 ->
   get_history sort_by_visit_time_desc limit history =
   Failed (Unhandled ValueError)) /\
  (0 <= limit ->
   exists entries,
     get_history sort_by_visit_time_desc limit history = Reply entries /\
     List.length entries = Nat.min (Z.to_nat limit) (List.length history) /\
     StronglySorted
       (fun entry1 entry2 =>
          HistoryEntry.visit_time entry2 <= HistoryEntry.visit_time entry1)
       entries /\
     forall entry, entry ∈ entries ->
       exists stored, stored ∈ history /\ entry = HistoryEntry_of_doc stored).
Proof.
  unfold get_history, mongo.to_list. split.
  - intros Hlimit. by destruct (Z.ltb_spec limit 0); [|lia].
  - intros Hlimit. destruct (Z.ltb_spec limit 0); [lia|].
    eexists. split; [done|].
    set (sorted := sort_by_visit_time_desc history).
    set (read := fun entry : HistoryDoc.t => HistoryEntry_of_doc _).
    split; [|split].
    + rewrite length_map, length_take. subst sorted.
      by rewrite (Permutation_length (sort_permutation history)).
    + change (map read (take (Z.to_nat limit) sorted))
        with (read <$> take (Z.to_nat limit) sorted).
      apply (StronglySorted_fmap _ newer_first).
      * intros entry1 entry2. unfold newer_first, read. cbn.
        by rewrite !instant_fromisoformat_if_str.
      * apply (StronglySorted_app_1_l _ _ (drop (Z.to_nat limit) sorted)).
        rewrite take_drop. apply sort_sorted.
    + intros entry Hentry.
      apply list_elem_of_In, in_map_iff in Hentry
        as (stored & <- & Hstored%list_elem_of_In).
      exists stored. split.
      * rewrite <- (sort_permutation history).
        by apply (subseteq_take (Z.to_nat limit)).
      * unfold read, HistoryEntry_of_doc. cbn.
        by rewrite instant_fromisoformat_if_str.
Qed.

End GetHistoryFacts.

(** * The further properties on the sample environments *)

(** The analyses that the samples below start from. *)
Lemma analysis_of_hardened_site :
  analyze_url accept_all hardened_site 0 "https://example.com" =
  Returned
    {| url := "https://example.com";
       https := true;
       security_headers :=
         fetch_security_headers (aiohttp.Response hardened_headers);
       ssl_info := None;
       privacy_score := 70;
       security_score := 80;
       recommendations := ["Excellent security configuration!"];
       timestamp := 0 |}.
Proof. evaluated. Qed.

Lemma analysis_of_partly_hardened_site :
  analyze_url accept_all partly_hardened_site 0 "example.com" =
  Returned
    {| url := "https://example.com";
       https := true;
       security_headers :=
         fetch_security_headers (partly_hardened_site "https://example.com");
       ssl_info := None;
       privacy_score := 35;
       security_score := 60;
       recommendations :=
         [ "Good security, but room for improvement";
           "Missing X-Frame-Options - vulnerable to clickjacking";
           "Missing X-Content-Type-Options header";
           "Missing Referrer-Policy - may leak information";
           "Missing Permissions-Policy header" ];
       timestamp := 0 |}.
Proof. evaluated. Qed.

Lemma analysis_of_bare_site :
  analyze_url accept_all bare_site 0 "http://example.com" =
  Returned
    {| url := "http://example.com";
       https := false;
       security_headers :=
         fetch_security_headers (bare_site "http://example.com");
       ssl_info := None;
       privacy_score := 0;
       security_score := 0;
       recommendations := failure_messages;
       timestamp := 0 |}.
Proof. evaluated. Qed.

Lemma analysis_of_sentinel_site :
  analyze_url accept_all sentinel_site 0 "example.com" =
  Returned
    {| url := "https://example.com";
       https := true;
       security_headers :=
         fetch_security_headers (aiohttp.Response sentinel_headers);
       ssl_info := None;
       privacy_score := 20;
       security_score := 45;
       recommendations :=
         [ "Missing CSP header - vulnerable to XSS attacks";
           "Missing X-Frame-Options - vulnerable to clickjacking";
           "Missing X-Content-Type-Options header";
           "Missing Referrer-Policy - may leak information";
           "Missing Permissions-Policy header" ];
       timestamp := 0 |}.
Proof. evaluated. Qed.

Lemma analysis_of_upper_case_scheme :
  analyze_url accept_all unreachable 0 "HTTPS://Example.com" =
  Returned
    {| url := "https://HTTPS://Example.com";
       https := true;
       security_headers := fetch_security_headers aiohttp.ClientError;
       ssl_info := None;
       privacy_score := 70;
       security_score := 80;
       recommendations := ["Excellent security configuration!"];
       timestamp := 0 |}.
Proof. evaluated. Qed.

(** An upper-case scheme is not recognized: the prefix is added. *)
Lemma https_flag_is_url_prefix_witness :
  exists r,
    analyze_url accept_all unreachable 0 "HTTPS://Example.com" = Returned r /\
    url r = "https://HTTPS://Example.com" /\
    https r = startswith (url r) "https://".
Proof.
  eexists. split; [exact analysis_of_upper_case_scheme|].
  split; [reflexivity|].
  exact (proj2 (https_flag_is_url_prefix accept_all unreachable 0
                  "HTTPS://Example.com" _ analysis_of_upper_case_scheme)).
Defined.

Lemma failure_message_iff_missing_witness :
  exists r,
    analyze_url accept_all partly_hardened_site 0 "example.com" = Returned r /\
    ("Missing X-Frame-Options - vulnerable to clickjacking"
       ∈ recommendations r <->
     security_headers r !! "X-Frame-Options" = Some "Missing").
Proof.
  eexists. split; [exact analysis_of_partly_hardened_site|].
  apply (failure_message_iff_missing accept_all partly_hardened_site 0
           "example.com" _ "X-Frame-Options" _
           analysis_of_partly_hardened_site).
  unfold header_rules. apply list_elem_of_In. vm_compute. auto.
Defined.

(** The header that says "Missing" is reported as missing. *)
Lemma failure_message_iff_not_sent_witness :
  exists r,
    analyze_url accept_all sentinel_site 0 "example.com" = Returned r /\
    aiohttp.get sentinel_headers "X-Frame-Options" = Some "Missing" /\
    "Missing X-Frame-Options - vulnerable to clickjacking"
      ∈ recommendations r.
Proof.
  eexists. split; [exact analysis_of_sentinel_site|].
  split; [reflexivity|].
  apply (failure_message_iff_not_sent accept_all sentinel_site 0
           "example.com" _ sentinel_headers "X-Frame-Options" _
           analysis_of_sentinel_site eq_refl).
  - apply list_elem_of_In. vm_compute. auto.
  - right. right. reflexivity.
Defined.

Lemma default_message_never_returned_witness :
  exists r,
    analyze_url accept_all hardened_site 0 "https://example.com" = Returned r /\
    ("All security checks passed!" ∉ recommendations r).
Proof.
  eexists. split; [exact analysis_of_hardened_site|].
  exact (default_message_never_returned accept_all hardened_site 0
           "https://example.com" _ analysis_of_hardened_site).
Defined.

(** HSTS and CSP alone do not make an "Excellent". *)
Lemma excellent_iff_security_rules_witness :
  exists r,
    analyze_url accept_all partly_hardened_site 0 "example.com" = Returned r /\
    security_headers r !! "X-Frame-Options" = Some "Missing" /\
    ("Excellent security configuration!" ∉ recommendations r).
Proof.
  eexists. split; [exact analysis_of_partly_hardened_site|].
  assert (fetch_security_headers (partly_hardened_site "https://example.com")
            !! "X-Frame-Options" = Some "Missing") as Hmissing
    by (vm_compute; reflexivity).
  split; [exact Hmissing|].
  intros Hin.
  apply (proj1 (excellent_iff_security_rules accept_all partly_hardened_site 0
                  "example.com" _ analysis_of_partly_hardened_site)) in Hin
    as (_ & _ & _ & Hframe & _).
  exact (Hframe Hmissing).
Defined.

Lemma recommendations_in_table_order_witness :
  exists r,
    analyze_url accept_all partly_hardened_site 0 "example.com" = Returned r /\
    NoDup (recommendations r) /\
    (List.length (recommendations r) <= 7)%nat.
Proof.
  eexists. split; [exact analysis_of_partly_hardened_site|].
  exact (proj2 (recommendations_in_table_order accept_all partly_hardened_site
                  0 "example.com" _ analysis_of_partly_hardened_site)).
Defined.

Lemma security_headers_keys_witness :
  exists r,
    analyze_url accept_all sentinel_site 0 "example.com" = Returned r /\
    dom (security_headers r) = list_to_set security_header_names.
Proof.
  eexists. split; [exact analysis_of_sentinel_site|].
  exact (proj1 (security_headers_keys accept_all sentinel_site 0
                  "example.com" _ analysis_of_sentinel_site)
           sentinel_headers eq_refl).
Defined.

Lemma analyze_url_again_witness :
  exists r,
    analyze_url accept_all partly_hardened_site 0 "example.com" = Returned r /\
    url r = "https://example.com" /\
    analyze_url accept_all partly_hardened_site 0 (url r) = Returned r.
Proof.
  eexists. split; [exact analysis_of_partly_hardened_site|].
  split; [reflexivity|].
  exact (analyze_url_again accept_all partly_hardened_site 0 "example.com" _
           analysis_of_partly_hardened_site).
Defined.

(** An IPv6 address that lacks its closing bracket. *)
Lemma unmatched_bracket_raises_witness :
  analyze_url accept_all hardened_site 0 "http://[::1/index.html" =
  Raised ValueError.
Proof.
  apply (unmatched_bracket_raises accept_all hardened_site 0
           "http://[::1/index.html" "[::1/index.html").
  - right. reflexivity.
  - vm_compute. discriminate.
Defined.

(** The hardened site over https does at least as well as the bare site
    over http. *)
Lemma scores_monotone_witness :
  exists r1 r2,
    analyze_url accept_all bare_site 0 "http://example.com" = Returned r1 /\
    analyze_url accept_all hardened_site 0 "https://example.com" =
    Returned r2 /\
    security_score r1 <= security_score r2 /\
    privacy_score r1 <= privacy_score r2.
Proof.
  eexists. eexists.
  split; [exact analysis_of_bare_site|].
  split; [exact analysis_of_hardened_site|].
  apply (scores_monotone accept_all accept_all bare_site hardened_site 0 0
           "http://example.com" "https://example.com" _ _
           analysis_of_bare_site analysis_of_hardened_site).
  - discriminate.
  - cbn [security_headers]. intros name Hname. unfold bare_site.
    rewrite !(fetch_security_headers_response _ _ Hname).
    revert name Hname.
    refine (each_security_header (fun name => _ -> _) _ _ _ _ _ _);
      vm_compute; discriminate.
Defined.

(** A tab posted with a null title. *)
Lemma create_tab_null_field_witness :
  create_tab "id-1" 5 (new_tab None (Some "")) [stored_tab "id-0" 1] =
  (Failed ValidationError, [stored_tab "id-0" 1]).
Proof.
  apply (create_tab_null_field "id-1" 5 (new_tab None (Some ""))).
  left. reflexivity.
Defined.

Lemma create_tab_then_get_tabs_witness :
  exists tab tabs' listed,
    create_tab "id-1" 5 (new_tab (Some "Example Org") (Some ""))
      [stored_tab "id-0" 1] = (Reply tab, tabs') /\
    Tab.id tab = "id-1" /\
    get_tabs [stored_tab "id-0" 1] = Reply listed /\
    get_tabs tabs' = Reply (listed ++ [tab])%list.
Proof.
  eexists. eexists.
  destruct (create_tab_then_get_tabs "id-1" 5
              (new_tab (Some "Example Org") (Some ""))
              [stored_tab "id-0" 1] _ _ eq_refl) as (listed & Hbefore & Hafter).
  - cbn. lia.
  - exists listed. split; [reflexivity|]. split; [reflexivity|].
    split; [exact Hbefore | exact Hafter].
Defined.

Lemma delete_tab_unknown_id_witness :
  delete_tab "id-9" [stored_tab "id-0" 1; stored_tab "id-1" 5] =
  (Failed (HTTPException 404 "Tab not found"),
   [stored_tab "id-0" 1; stored_tab "id-1" 5]).
Proof.
  apply (delete_tab_unknown_id "id-9").
  intros tab Htab%list_elem_of_In. cbn in Htab.
  destruct Htab as [<-|[<-|[]]]; discriminate.
Defined.

(** Of two tabs with one identifier the first is removed. *)
Lemma delete_tab_known_id_witness :
  delete_tab "id-1"
    [stored_tab "id-0" 1; stored_tab "id-1" 5; stored_tab "id-1" 7] =
  (Reply {[ "message" := "Tab deleted" ]},
   [stored_tab "id-0" 1; stored_tab "id-1" 7]).
Proof.
  apply (delete_tab_known_id "id-1" [stored_tab "id-0" 1]
           [stored_tab "id-1" 7] (stored_tab "id-1" 5)).
  - intros other Hother%list_elem_of_In. cbn in Hother.
    destruct Hother as [<-|[]]. discriminate.
  - reflexivity.
Defined.

Lemma create_tab_then_delete_tab_witness :
  exists tab tabs',
    create_tab "id-1" 5 (new_tab (Some "Example Org") (Some ""))
      [stored_tab "id-0" 1] = (Reply tab, tabs') /\
    delete_tab (Tab.id tab) tabs' =
    (Reply {[ "message" := "Tab deleted" ]}, [stored_tab "id-0" 1]).
Proof.
  eexists. eexists. split; [reflexivity|].
  apply (create_tab_then_delete_tab "id-1" 5
           (new_tab (Some "Example Org") (Some ""))
           [stored_tab "id-0" 1]); [|reflexivity].
  intros other Hother%list_elem_of_In. cbn in Hother.
  destruct Hother as [<-|[]]. discriminate.
Defined.

Lemma add_history_keeps_urls_unique_witness :
  NoDup
    (map HistoryDoc.url
       (add_history "d" 40 41 (visit "https://b.example" (Some ""))
          three_visits).2) /\
  NoDup
    (map HistoryDoc.url
       (add_history "d" 40 41 (visit "https://d.example" (Some ""))
          three_visits).2).
Proof.
  assert (NoDup (map HistoryDoc.url three_visits)) as Hunique.
  { compute_done. }
  split; apply add_history_keeps_urls_unique; exact Hunique.
Defined.

(** A second visit with another title and a null favicon. *)
Lemma add_history_known_url_witness :
  add_history "d" 40 41 (visit "https://b.example" None) three_visits =
  (Reply {| HistoryEntry.id := "b";
            HistoryEntry.url := "https://b.example";
            HistoryEntry.title := "";
            HistoryEntry.favicon := "";
            HistoryEntry.visit_time := 41;
            HistoryEntry.visit_count := 5 |},
   [ stored_visit "a" "https://a.example" 10 1;
     stored_visit "b" "https://b.example" 40 5;
     stored_visit "c" "https://c.example" 20 2 ]).
Proof.
  apply (add_history_known_url "d" 40 41 (visit "https://b.example" None)
           [stored_visit "a" "https://a.example" 10 1]
           [stored_visit "c" "https://c.example" 20 2]
           (stored_visit "b" "https://b.example" 30 4)).
  - intros other Hother%list_elem_of_In. cbn in Hother.
    destruct Hother as [<-|[]]. discriminate.
  - reflexivity.
Defined.

(** Three visits, two of them to one URL that was unknown before. *)
Lemma visit_count_counts_visits_witness :
  visits_recorded "https://d.example"
    (add_history_each
       [ ("d", 40, 41, visit "https://d.example" (Some ""));
         ("e", 50, 51, visit "https://b.example" (Some ""));
         ("f", 60, 61, visit "https://d.example" (Some "")) ]
       three_visits) = 2.
Proof.
  rewrite (visit_count_counts_visits _ three_visits "https://d.example").
  - reflexivity.
  - intros request Hrequest%list_elem_of_In. cbn in Hrequest.
    destruct Hrequest as [<-|[<-|[<-|[]]]]; discriminate.
Defined.

Lemma add_history_reply_is_stored_witness :
  exists entry history' stored,
    add_history "d" 40 41 (visit "https://b.example" (Some "")) three_visits =
    (Reply entry, history') /\
    mongo.find_one (url_is "https://b.example") history' = Some stored /\
    HistoryDoc.visit_count stored = HistoryEntry.visit_count entry /\
    HistoryDoc.visit_time stored = IsoText 40 /\
    HistoryEntry.visit_time entry = 41.
Proof.
  eexists. eexists.
  destruct (add_history_reply_is_stored "d" 40 41
              (visit "https://b.example" (Some "")) three_visits _ _ eq_refl)
    as (stored & Hfind & _ & _ & _ & _ & Hcount & Htime & Hreply).
  exists stored. split; [reflexivity|].
  split; [exact Hfind|]. split; [exact Hcount|].
  split; [exact Htime | exact Hreply].
Defined.

Lemma add_history_null_favicon_witness :
  add_history "d" 40 41 (visit "https://d.example" None) three_visits =
  (Failed ValidationError, three_visits).
Proof.
  apply (add_history_null_favicon "d" 40 41
           (visit "https://d.example" None) three_visits); [|reflexivity].
  intros entry Hentry%list_elem_of_In. cbn in Hentry.
  destruct Hentry as [<-|[<-|[<-|[]]]]; discriminate.
Defined.

Lemma delete_history_outcome_witness :
  exists before entry after,
    three_visits = (before ++ entry :: after)%list /\
    HistoryDoc.id entry = "b" /\
    (delete_history "b" three_visits).2 = (before ++ after)%list.
Proof.
  destruct (delete_history_outcome "b" three_visits _ _ eq_refl)
    as [(Hresult & _)|(_ & before & entry & after & Hsplit & Hid & _ & Hrest)].
  - discriminate Hresult.
  - exists before, entry, after. split; [exact Hsplit|].
    split; [exact Hid | exact Hrest].
Defined.

Lemma clear_history_forgets_witness :
  (add_history "d" 40 41 (visit "https://b.example" (Some "icon"))
     (clear_history three_visits).2).1 =
  Reply {| HistoryEntry.id := "d";
           HistoryEntry.url := "https://b.example";
           HistoryEntry.title := "Test Site";
           HistoryEntry.favicon := "icon";
           HistoryEntry.visit_time := 40;
           HistoryEntry.visit_count := 1 |}.
Proof.
  rewrite (clear_history_forgets "d" "icon" 40 41
             (visit "https://b.example" (Some "icon")) three_visits eq_refl).
  reflexivity.
Defined.

Lemma newer_first_transitive : Transitive newer_first.
Proof. unfold newer_first. intros entry1 entry2 entry3. lia. Qed.

Lemma newer_first_total : Total newer_first.
Proof. unfold newer_first. intros entry1 entry2. lia. Qed.

(** The two newest of three entries. *)
Lemma get_history_limit_witness :
  get_history sort_newest_first (-1) three_visits =
  Failed (Unhandled ValueError) /\
  exists entries,
    get_history sort_newest_first 2 three_visits = Reply entries /\
    map HistoryEntry.id entries = ["b"; "c"] /\
    List.length entries = 2%nat.
Proof.
  pose proof (get_history_limit sort_newest_first
                (merge_sort_Permutation newer_first)
                (@StronglySorted_merge_sort _ newer_first _
                   newer_first_transitive newer_first_total)) as Hlimit.
  split.
  - apply (Hlimit (-1) three_visits). lia.
  - destruct (proj2 (Hlimit 2 three_visits) ltac:(lia))
      as (entries & Hentries & Hlength & _).
    exists entries. split; [exact Hentries|]. split; [|exact Hlength].
    vm_compute in Hentries. by injection Hentries as <-.
Defined.
